(** * football-api-app: the data provider of [app.py] and its presentation glue

    A shallow embedding of [src/app.py]: the three fetch operations
    ([get_competitions_data], [get_live_matches], [get_upcoming_matches]),
    the process-wide cache [api_cache], the formatting helpers and the
    request handler [home], followed by the properties the specification
    states about them.

    Modelling conventions.
    - A Python [str] is a Rocq [string] holding its UTF-8 bytes: equality,
      substring search, [replace] of an ASCII character and the code point
      order all agree with the byte-wise operations.
    - The dictionaries the program uses as fixed-shape records (competition,
      match, team, ...) are records; a key that may be missing is an [option]
      field, so that [d.get(key, default)] is [default] on [None].
    - [time.time()] is a rational number of seconds.
    - Exceptions are values of [exn]; code runs in a state-and-exception
      monad over the mutable globals of the module ([World]) and the
      surroundings it reads ([Env]: credential, network, clock). *)

From Stdlib Require Import ZArith QArith Strings.String Strings.Ascii DecimalString.
From stdpp Require Import base option list sorting gmap strings.

Local Open Scope string_scope.
Local Open Scope Z_scope.

(** ** Exceptions and results *)

Inductive exn : Type :=
| RequestException (what : string)   (* requests: connection error, timeout, ... *)
| JSONDecodeError                    (* response.json() on a body that is not JSON *)
| AttributeError                     (* attribute missing on the receiver *)
| TypeError
| ValueError.

Inductive result (A : Type) : Type :=
| Ok (a : A)
| Raise (e : exn).
Arguments Ok {A} a.
Arguments Raise {A} e.

(** ** Data model *)

Record Area := { area_name : option string }.

Record Competition := {
  comp_name : option string;
  comp_code : option string;
  comp_area : option Area;
  comp_plan : option string
}.

Record Team := { team_name : option string; team_crest : option string }.
Record FullTime := { ft_home : option Z; ft_away : option Z }.
Record Score := { fullTime : option FullTime }.
Record CompetitionRef := { cref_name : option string }.

Record Match := {
  homeTeam : option Team;
  awayTeam : option Team;
  utcDate : option string;
  status : option string;
  competition : option CompetitionRef;
  score : option Score
}.

(** The JSON object an endpoint answers with, seen through the two keys the
    program reads. *)
Record Document := {
  doc_competitions : option (list Competition);
  doc_matches : option (list Match)
}.

(** What [response.json()] yields when it does not raise: an object, or some
    other JSON value (array, number, ...), on which [.get] does not exist. *)
Inductive JSON : Type :=
| JObject (d : Document)
| JOther.

Record Response := {
  status_code : Z;
  body : result JSON
}.

Record Request := {
  url : string;
  headers : gmap string string;
  params : gmap string string;
  timeout : Z
}.

(** [datetime.datetime]: the fields of a date and time, with the offset from
    UTC in minutes when the value is timezone aware. *)
Record datetime := {
  year : Z; month : Z; day : Z;
  hour : Z; minute : Z; second : Z; microsecond : Z;
  tzoffset : option Z
}.

Record timedelta := { td_days : Z; td_hours : Z }.

(** ** Strings: the [str] operations the program uses *)

(** [p] is a prefix of [s]. *)
Fixpoint str_startswith (p s : string) : bool :=
  match p, s with
  | EmptyString, _ => true
  | String _ _, EmptyString => false
  | String a p', String b s' => Ascii.eqb a b && str_startswith p' s'
  end.

(** [needle in hay]. *)
Fixpoint str_contains (needle hay : string) : bool :=
  str_startswith needle hay ||
  match hay with
  | EmptyString => false
  | String _ hay' => str_contains needle hay'
  end.

(** [s.replace(old, new)] for a non-empty [old]: the occurrences are found
    from the left and do not overlap; [skip] counts the characters of a
    match that are still to be dropped. *)
Fixpoint str_replace_from (old new s : string) (skip : nat) : string :=
  match s with
  | EmptyString => EmptyString
  | String c s' =>
      match skip with
      | S k => str_replace_from old new s' k
      | O =>
          if str_startswith old s
          then new ++ str_replace_from old new s' (String.length old - 1)
          else String c (str_replace_from old new s' O)
      end
  end.

Definition str_replace (old new s : string) : string :=
  str_replace_from old new s O.

(** [a < b] on [str]: lexicographic on code points. *)
Definition str_lt (a b : string) : bool := String.ltb a b.

(** Truth value of a [str] or [None]. *)
Definition truthy_str (o : option string) : bool :=
  match o with
  | Some s => negb (String.eqb s "")
  | None => false
  end.

(** Truth value of a list or [None]. *)
Definition truthy_list {A} (o : option (list A)) : bool :=
  match o with
  | Some (_ :: _) => true
  | _ => false
  end.

(** ASCII lower-casing; it is [str.lower] on text whose cased letters are
    all ASCII. *)
Definition ascii_lower (c : ascii) : ascii :=
  let n := N_of_ascii c in
  if ((65 <=? n) && (n <=? 90))%N then ascii_of_N (n + 32) else c.

Fixpoint str_lower_ascii (s : string) : string :=
  match s with
  | EmptyString => EmptyString
  | String c s' => String (ascii_lower c) (str_lower_ascii s')
  end.

(** ** Dates: formatting *)

Definition digit (n : Z) : ascii := ascii_of_N (48 + Z.to_N n).

(** Zero-padded decimal of width two and of width four. *)
Definition fmt2 (n : Z) : string :=
  String (digit (n / 10)) (String (digit (n mod 10)) EmptyString).

Definition fmt4 (n : Z) : string :=
  String (digit (n / 1000)) (String (digit (n / 100 mod 10))
    (String (digit (n / 10 mod 10)) (String (digit (n mod 10)) EmptyString))).

Definition decimal (n : Z) : string :=
  NilZero.string_of_uint (N.to_uint (Z.to_N n)).

Definition is_leap (y : Z) : bool :=
  ((y mod 4 =? 0) && negb (y mod 100 =? 0)) || (y mod 400 =? 0).

Definition days_in_month (y m : Z) : Z :=
  if m =? 2 then (if is_leap y then 29 else 28)
  else if (m =? 4) || (m =? 6) || (m =? 9) || (m =? 11) then 30
  else 31.

Definition month_names : list string :=
  [ "January"; "February"; "March"; "April"; "May"; "June"; "July";
    "August"; "September"; "October"; "November"; "December" ].

Definition month_name (m : Z) : string :=
  default "" (month_names !! Z.to_nat (m - 1)).

(** [datetime.strftime] for the directives the program uses (C locale, years
    printed as glibc does, without padding); any other character of the
    format is copied. *)
Definition strftime_directive (c : ascii) (dt : datetime) : string :=
  if Ascii.eqb c "H" then fmt2 (hour dt)
  else if Ascii.eqb c "M" then fmt2 (minute dt)
  else if Ascii.eqb c "d" then fmt2 (day dt)
  else if Ascii.eqb c "m" then fmt2 (month dt)
  else if Ascii.eqb c "Y" then decimal (year dt)
  else if Ascii.eqb c "B" then month_name (month dt)
  else String "%" (String c EmptyString).

Fixpoint strftime (fmt : string) (dt : datetime) : string :=
  match fmt with
  | EmptyString => EmptyString
  | String c rest =>
      if Ascii.eqb c "%" then
        match rest with
        | String d rest' => strftime_directive d dt ++ strftime rest' dt
        | EmptyString => String c EmptyString
        end
      else String c (strftime rest dt)
  end.

(** A civil date and time of day in range, as [datetime] accepts it. *)
Definition valid_fields (y mo d h mi s : Z) : Prop :=
  1 <= y <= 9999 /\ 1 <= mo <= 12 /\ 1 <= d <= days_in_month y mo /\
  0 <= h < 24 /\ 0 <= mi < 60 /\ 0 <= s < 60.

(** [YYYY-MM-DDTHH:MM:SS], the extended ISO-8601 format of the API. *)
Definition iso_seconds (y mo d h mi s : Z) : string :=
  fmt4 y ++ "-" ++ fmt2 mo ++ "-" ++ fmt2 d ++ "T" ++
  fmt2 h ++ ":" ++ fmt2 mi ++ ":" ++ fmt2 s.

(** ** The Python runtime the program calls into

    [str.lower] needs the Unicode tables, and [datetime]'s parser accepts a
    grammar that grew between releases; both are taken as an interface.
    The one law is common to every release that has [fromisoformat]: a
    timestamp in extended format with seconds and the offset [+00:00] parses
    to its fields, aware, at offset zero. *)
Class PyRuntime := {
  str_lower : string -> string;
  fromisoformat : string -> result datetime;
  isoformat : datetime -> string;
  dt_add : datetime -> timedelta -> datetime;
  fromisoformat_utc : forall y mo d h mi s,
    valid_fields y mo d h mi s ->
    fromisoformat (iso_seconds y mo d h mi s ++ "+00:00") =
    Ok {| year := y; month := mo; day := d; hour := h; minute := mi;
          second := s; microsecond := 0; tzoffset := Some 0 |}
}.

(** ** Surroundings and mutable globals *)

(** What the process reads but does not own: the credential taken from the
    environment when the module is loaded, the remote service (the answer to
    the [k]-th request), and the clock (its [k]-th reading, as [time.time()]
    and as [datetime.now()]; [import_now] are the readings taken while the
    module is loaded). *)
Record Env := {
  API_KEY : option string;
  network : nat -> Request -> result Response;
  clock_time : nat -> Q;
  clock_now : nat -> datetime;
  import_now : nat -> datetime
}.

(** The dictionary [api_cache], with its two keys. *)
Record Cache := {
  data : option (list Competition);
  timestamp : Q
}.

(** The module's mutable state: the cache, the contents of the list object
    bound to [FALLBACK_COMPETITIONS] (a list is mutable, and the handler
    sorts in place), the requests sent so far and the number of clock
    readings taken. *)
Record World := {
  api_cache : Cache;
  fallback_competitions : list Competition;
  sent : list Request;
  ticks : nat
}.

(** The list objects that outlive a call. A value of this type is a
    reference: two equal references are the same object. A reference to the
    cache data stands for the object the cache holds when it is read; the
    program reads it before it can assign the cache again. *)
Inductive objref : Type :=
| RefFallbackCompetitions   (* the object bound to FALLBACK_COMPETITIONS *)
| RefCacheData.             (* the object stored under api_cache["data"] *)

Definition deref (w : World) (r : objref) : list Competition :=
  match r with
  | RefFallbackCompetitions => fallback_competitions w
  | RefCacheData => default [] (data (api_cache w))
  end.

Definition store (r : objref) (l : list Competition) (w : World) : World :=
  match r with
  | RefFallbackCompetitions =>
      {| api_cache := api_cache w; fallback_competitions := l;
         sent := sent w; ticks := ticks w |}
  | RefCacheData =>
      {| api_cache := {| data := Some l; timestamp := timestamp (api_cache w) |};
         fallback_competitions := fallback_competitions w;
         sent := sent w; ticks := ticks w |}
  end.

(** ** The monad of the program: state over [World], exceptions, reading [Env] *)

Definition M (A : Type) : Type := Env -> World -> result A * World.

Definition ret {A} (a : A) : M A := fun _ w => (Ok a, w).

Definition bind {A B} (m : M A) (k : A -> M B) : M B :=
  fun e w =>
    match m e w with
    | (Ok a, w') => k a e w'
    | (Raise x, w') => (Raise x, w')
    end.

Definition raise {A} (x : exn) : M A := fun _ w => (Raise x, w).

(** [try: m except Exception: h]; what [m] wrote before it raised stays
    written. *)
Definition try_except {A} (m : M A) (h : exn -> M A) : M A :=
  fun e w =>
    match m e w with
    | (Ok a, w') => (Ok a, w')
    | (Raise x, w') => h x e w'
    end.

Definition lift {A} (r : result A) : M A := fun _ w => (r, w).
Definition asks {A} (f : Env -> A) : M A := fun e w => (Ok (f e), w).
Definition gets {A} (f : World -> A) : M A := fun _ w => (Ok (f w), w).
Definition modify (f : World -> World) : M unit := fun _ w => (Ok tt, f w).

Declare Scope py_scope.
Delimit Scope py_scope with py.
Notation "x <- m ;; k" := (bind m (fun x => k))
  (at level 100, m at next level, right associativity) : py_scope.
Notation "m ;; k" := (bind m (fun _ => k))
  (at level 100, right associativity) : py_scope.
Local Open Scope py_scope.

(** [time.time()] and [datetime.now()]: one more reading of the clock. *)
Definition tick (w : World) : World :=
  {| api_cache := api_cache w; fallback_competitions := fallback_competitions w;
     sent := sent w; ticks := S (ticks w) |}.

Definition time_time : M Q :=
  fun e w => (Ok (clock_time e (ticks w)), tick w).

Definition datetime_now : M datetime :=
  fun e w => (Ok (clock_now e (ticks w)), tick w).

(** [requests.get(url, headers=..., params=..., timeout=...)]: the request
    goes out, and the service answers or the call raises. *)
Definition requests_get (u : string) (hs ps : gmap string string) (t : Z)
  : M Response :=
  fun e w =>
    let rq := {| url := u; headers := hs; params := ps; timeout := t |} in
    (network e (length (sent w)) rq,
     {| api_cache := api_cache w; fallback_competitions := fallback_competitions w;
        sent := sent w ++ [rq]; ticks := ticks w |}).

(** [response.json()]. *)
Definition response_json (r : Response) : M JSON := lift (body r).

(** [data.get("competitions", [])] and [data.get("matches", [])]. *)
Definition get_competitions_key (j : JSON) : M (list Competition) :=
  match j with
  | JObject d => ret (default [] (doc_competitions d))
  | JOther => raise AttributeError
  end.

Definition get_matches_key (j : JSON) : M (list Match) :=
  match j with
  | JObject d => ret (default [] (doc_matches d))
  | JOther => raise AttributeError
  end.

(** [api_cache["data"] = v] and [api_cache["timestamp"] = t]. *)
Definition set_api_cache_data (v : list Competition) : M unit :=
  modify (fun w =>
    {| api_cache := {| data := Some v; timestamp := timestamp (api_cache w) |};
       fallback_competitions := fallback_competitions w;
       sent := sent w; ticks := ticks w |}).

Definition set_api_cache_timestamp (t : Q) : M unit :=
  modify (fun w =>
    {| api_cache := {| data := data (api_cache w); timestamp := t |};
       fallback_competitions := fallback_competitions w;
       sent := sent w; ticks := ticks w |}).

(** ** Constants of the module *)

Definition API_BASE : string := "https://api.football-data.org/v4".
Definition API_URL : string := API_BASE ++ "/competitions".
Definition MATCHES_URL : string := API_BASE ++ "/matches".

Definition mk_competition (n c a p : string) : Competition :=
  {| comp_name := Some n; comp_code := Some c;
     comp_area := Some {| area_name := Some a |}; comp_plan := Some p |}.

(** The list [FALLBACK_COMPETITIONS] is bound to when the module is loaded. *)
Definition FALLBACK_COMPETITIONS : list Competition :=
  [ mk_competition "Premier League" "PL" "England" "TIER_ONE";
    mk_competition "La Liga" "PD" "Spain" "TIER_ONE";
    mk_competition "Bundesliga" "BL1" "Germany" "TIER_ONE";
    mk_competition "Serie A" "SA" "Italy" "TIER_ONE";
    mk_competition "Ligue 1" "FL1" "France" "TIER_ONE";
    mk_competition "Eredivisie" "DED" "Netherlands" "TIER_ONE";
    mk_competition "Primeira Liga" "PPL" "Portugal" "TIER_ONE";
    mk_competition "Championship" "ELC" "England" "TIER_TWO";
    mk_competition "UEFA Champions League" "CL" "Europe" "TIER_ONE";
    mk_competition "FIFA World Cup" "WC" "World" "TIER_ONE";
    mk_competition "Campeonato Brasileiro Série A" "BSA" "Brazil" "TIER_ONE";
    mk_competition "Copa Libertadores" "CLI" "South America" "TIER_ONE";
    mk_competition "European Championship" "EC" "Europe" "TIER_ONE" ].

Definition CACHE_DURATION : Q := 300.

(** [a < b] on the rationals, as a boolean. *)
Definition Qltb (a b : Q) : bool := negb (Qle_bool b a).

(** The module as it is right after loading. *)
Definition initial_world : World :=
  {| api_cache := {| data := None; timestamp := 0 |};
     fallback_competitions := FALLBACK_COMPETITIONS;
     sent := [];
     ticks := O |}.

(** ** Fetch competitions *)

Definition get_competitions_data : M (objref * bool) :=
  current_time <- time_time ;;
  cache <- gets api_cache ;;
  if truthy_list (data cache) &&
     Qltb (current_time - timestamp cache) CACHE_DURATION
  then ret (RefCacheData, false)
  else
    try_except
      (key <- asks API_KEY ;;
       let hs : gmap string string :=
         if truthy_str key then {[ "X-Auth-Token" := default "" key ]} else ∅ in
       response <- requests_get API_URL hs ∅ 10 ;;
       if status_code response =? 200 then
         json <- response_json response ;;
         competitions <- get_competitions_key json ;;
         set_api_cache_data competitions ;;
         set_api_cache_timestamp current_time ;;
         ret (RefCacheData, false)
       else
         ret (RefFallbackCompetitions, true))
      (fun _ => ret (RefFallbackCompetitions, true)).

Section Program.
Context {rt : PyRuntime}.

Definition days (n : Z) : timedelta := {| td_days := n; td_hours := 0 |}.
Definition hours (n : Z) : timedelta := {| td_days := 0; td_hours := n |}.

Definition mk_match (h hc a ac : option string) (date st comp : string)
  (sh sa : option Z) : Match :=
  {| homeTeam := Some {| team_name := h; team_crest := hc |};
     awayTeam := Some {| team_name := a; team_crest := ac |};
     utcDate := Some date;
     status := Some st;
     competition := Some {| cref_name := Some comp |};
     score := Some {| fullTime := Some {| ft_home := sh; ft_away := sa |} |} |}.

(** [FALLBACK_MATCHES], built once while the module is loaded: its dates are
    relative to the clock readings of that moment. *)
Definition FALLBACK_MATCHES (e : Env) : list Match :=
  [ mk_match (Some "Manchester United") (Some "🔴") (Some "Liverpool") (Some "🔴")
      (isoformat (dt_add (import_now e 0) (hours 2)))
      "SCHEDULED" "Premier League" None None;
    mk_match (Some "Barcelona") (Some "🔵") (Some "Real Madrid") (Some "⚪")
      (isoformat (import_now e 1))
      "IN_PLAY" "La Liga" (Some 2) (Some 1);
    mk_match (Some "Bayern Munich") (Some "🔴") (Some "Borussia Dortmund") (Some "🟡")
      (isoformat (dt_add (import_now e 2) (hours (-1))))
      "FINISHED" "Bundesliga" (Some 3) (Some 2) ].

(** ** Fetch live matches *)

Definition get_live_matches : M (list Match * bool) :=
  fallback <- asks FALLBACK_MATCHES ;;
  try_except
    (key <- asks API_KEY ;;
     if negb (truthy_str key) then ret (fallback, true)
     else
       let hs : gmap string string := {[ "X-Auth-Token" := default "" key ]} in
       now <- datetime_now ;;
       let today := strftime "%Y-%m-%d" now in
       let ps : gmap string string :=
         <[ "dateFrom" := today ]> (<[ "dateTo" := today ]> ∅) in
       response <- requests_get MATCHES_URL hs ps 10 ;;
       if status_code response =? 200 then
         json <- response_json response ;;
         matches <- get_matches_key json ;;
         ret (take 10 matches, false)
       else
         ret (fallback, true))
    (fun _ => ret (fallback, true)).

(** ** Fetch upcoming matches *)

Definition upcoming_fixture (h a : string) (date comp : string) : Match :=
  {| homeTeam := Some {| team_name := Some h; team_crest := None |};
     awayTeam := Some {| team_name := Some a; team_crest := None |};
     utcDate := Some date;
     status := Some "SCHEDULED";
     competition := Some {| cref_name := Some comp |};
     score := Some {| fullTime := Some {| ft_home := None; ft_away := None |} |} |}.

(** The three sample fixtures, from three readings of the clock. *)
Definition upcoming_fixtures (n1 n2 n3 : datetime) : list Match :=
  [ upcoming_fixture "Chelsea" "Arsenal"
      (isoformat (dt_add n1 (days 1))) "Premier League";
    upcoming_fixture "AC Milan" "Inter Milan"
      (isoformat (dt_add n2 (days 2))) "Serie A";
    upcoming_fixture "Paris Saint-Germain" "Marseille"
      (isoformat (dt_add n3 (days 3))) "Ligue 1" ].

(** The body of the [try] either returns from inside the innermost [if]
    ([Some]) or falls through to the [return] after it ([None]). *)
Definition get_upcoming_matches : M (list Match * bool) :=
  n1 <- datetime_now ;;
  n2 <- datetime_now ;;
  n3 <- datetime_now ;;
  let upcoming := upcoming_fixtures n1 n2 n3 in
  try_except
    (key <- asks API_KEY ;;
     returned <-
       (if truthy_str key then
          let hs : gmap string string := {[ "X-Auth-Token" := default "" key ]} in
          n4 <- datetime_now ;;
          let tomorrow := strftime "%Y-%m-%d" (dt_add n4 (days 1)) in
          n5 <- datetime_now ;;
          let week_ahead := strftime "%Y-%m-%d" (dt_add n5 (days 7)) in
          let ps : gmap string string :=
            <[ "dateFrom" := tomorrow ]> (<[ "dateTo" := week_ahead ]> ∅) in
          response <- requests_get MATCHES_URL hs ps 10 ;;
          if status_code response =? 200 then
            json <- response_json response ;;
            real_matches <- get_matches_key json ;;
            if truthy_list (Some real_matches)
            then ret (Some (take 5 real_matches, false))
            else ret None
          else ret None
        else ret None) ;;
     match returned with
     | Some r => ret r
     | None => ret (upcoming, true)
     end)
    (fun _ => ret (upcoming, true)).

(** ** Formatting *)

(** A bare [except:] catches whatever the body raises. *)
Definition format_match_time (utc_date_str : string) : M string :=
  try_except
    (utc_time <- lift (fromisoformat (str_replace "Z" "+00:00" utc_date_str)) ;;
     ret (strftime "%H:%M" utc_time))
    (fun _ => ret "TBD").

Definition format_upcoming_date (utc_date_str : string) : M string :=
  try_except
    (utc_time <- lift (fromisoformat (str_replace "Z" "+00:00" utc_date_str)) ;;
     ret (strftime "%B %d, %Y" utc_time))
    (fun _ => ret "Date TBD").

Definition status_map : gmap string string :=
  <[ "SCHEDULED" := " Scheduled" ]> (
  <[ "IN_PLAY" := " LIVE" ]> (
  <[ "PAUSED" := " Half Time" ]> (
  <[ "FINISHED" := " Finished" ]> (
  <[ "POSTPONED" := " Postponed" ]> (
  <[ "CANCELLED" := " Cancelled" ]> ∅))))).

Definition get_match_status_display (st : string) : string :=
  default st (status_map !! st).

(** ** Filtering and sorting, as the handler does them *)

(** [list.sort(key=...)] with string keys: a stable sort that compares keys
    with [<] only. Insertion from the right is one; every stable sort
    computes the same list. *)
Fixpoint sort_insert {A} (key : A -> string) (x : A) (l : list A) : list A :=
  match l with
  | [] => [x]
  | y :: l' =>
      if str_lt (key y) (key x) then y :: sort_insert key x l'
      else x :: l
  end.

Fixpoint list_sort {A} (key : A -> string) (l : list A) : list A :=
  match l with
  | [] => []
  | x :: l' => sort_insert key x (list_sort key l')
  end.

(** [sorted(list(set(l)))]: the elements of [l] without repetition, in
    ascending order. *)
Definition sorted_set (l : list string) : list string :=
  list_sort id (remove_dups l).

(** [comp.get('name', '')], [comp.get('code', '')] and
    [comp.get('area', {}).get('name', '')]. *)
Definition name_of (c : Competition) : string := default "" (comp_name c).
Definition code_of (c : Competition) : string := default "" (comp_code c).
Definition area_name_of (c : Competition) : string :=
  default "" (comp_area c ≫= area_name).

(** The condition of the search comprehension; [search_query] is already in
    lower case. *)
Definition search_keeps (search_query : string) (c : Competition) : bool :=
  str_contains search_query (str_lower (name_of c)) ||
  str_contains search_query (str_lower (code_of c)).

(** The condition of the country comprehension. *)
Definition country_keeps (filter_country : string) (c : Competition) : bool :=
  String.eqb (str_lower (area_name_of c)) (str_lower filter_country).

(** [if search_query: competitions = [...]], on the value of [search] as it
    arrives in the request. *)
Definition filter_by_search (search : string) (l : list Competition)
  : list Competition :=
  let search_query := str_lower search in
  if truthy_str (Some search_query)
  then List.filter (search_keeps search_query) l
  else l.

(** [if filter_country: competitions = [...]]. *)
Definition filter_by_country (filter_country : string) (l : list Competition)
  : list Competition :=
  if truthy_str (Some filter_country)
  then List.filter (country_keeps filter_country) l
  else l.

Definition sort_by_name (l : list Competition) : list Competition :=
  list_sort name_of l.

Definition sort_by_country (l : list Competition) : list Competition :=
  list_sort area_name_of l.

(** ** The request handler *)

Record ProcessedMatch := {
  pm_homeTeam : string;
  pm_awayTeam : string;
  pm_homeScore : option Z;
  pm_awayScore : option Z;
  pm_status : string;
  pm_competition : string;
  pm_time : string;
  pm_is_live : bool
}.

Record ProcessedUpcoming := {
  pu_homeTeam : string;
  pu_awayTeam : string;
  pu_competition : string;
  pu_date : string;
  pu_time : string
}.

(** The keyword arguments of [render_template("index.html", ...)]; [None] in
    the last four stands for an argument that is [None] or not passed. *)
Record IndexContext := {
  ctx_competitions : list Competition;
  ctx_countries : list string;
  ctx_current_search : string;
  ctx_current_sort : string;
  ctx_current_country : string;
  ctx_status_message : option string;
  ctx_error_message : option string;
  ctx_live_matches : option (list ProcessedMatch);
  ctx_upcoming_matches : option (list ProcessedUpcoming)
}.

(** A local variable holding a list: one of the shared objects, or a list
    this call built itself. *)
Inductive listvar : Type :=
| Shared (r : objref)
| Fresh (l : list Competition).

Definition read (v : listvar) : M (list Competition) :=
  match v with
  | Shared r => gets (fun w => deref w r)
  | Fresh l => ret l
  end.

(** [v.sort(key=...)]: in place, so a shared object changes for everyone. *)
Definition sort_in_place (key : Competition -> string) (v : listvar) : M listvar :=
  match v with
  | Shared r => modify (fun w => store r (list_sort key (deref w r)) w) ;; ret v
  | Fresh l => ret (Fresh (list_sort key l))
  end.

Definition team_name_of (t : option Team) : string :=
  default "Unknown" (t ≫= team_name).

Definition full_time_of (m : Match) : option FullTime := score m ≫= fullTime.

Definition process_match (m : Match) : M ProcessedMatch :=
  t <- format_match_time (default "" (utcDate m)) ;;
  ret {| pm_homeTeam := team_name_of (homeTeam m);
         pm_awayTeam := team_name_of (awayTeam m);
         pm_homeScore := full_time_of m ≫= ft_home;
         pm_awayScore := full_time_of m ≫= ft_away;
         pm_status := get_match_status_display (default "UNKNOWN" (status m));
         pm_competition := default "Unknown" (competition m ≫= cref_name);
         pm_time := t;
         pm_is_live := bool_decide (status m = Some "IN_PLAY") |}.

Definition process_upcoming (m : Match) : M ProcessedUpcoming :=
  d <- format_upcoming_date (default "" (utcDate m)) ;;
  t <- format_match_time (default "" (utcDate m)) ;;
  ret {| pu_homeTeam := team_name_of (homeTeam m);
         pu_awayTeam := team_name_of (awayTeam m);
         pu_competition := default "Unknown" (competition m ≫= cref_name);
         pu_date := d;
         pu_time := t |}.

(** [for x in l: out.append(f(x))]. *)
Fixpoint for_each {A B} (f : A -> M B) (l : list A) : M (list B) :=
  match l with
  | [] => ret []
  | x :: l' => y <- f x ;; ys <- for_each f l' ;; ret (y :: ys)
  end.

Definition fallback_notice : string :=
  " Using sample data - Live API data will load when available.".

(** [request.args.get(key, default)]. *)
Definition arg (args : gmap string string) (key dflt : string) : string :=
  default dflt (args !! key).

Definition home (args : gmap string string) : M IndexContext :=
  try_except
    (let search_query := str_lower (arg args "search" "") in
     let sort_by := arg args "sort" "name" in
     let filter_country := arg args "country" "" in
     r1 <- get_competitions_data ;;
     let '(competitions, using_fallback) := r1 in
     r2 <- get_live_matches ;;
     let '(live_matches, matches_fallback) := r2 in
     r3 <- get_upcoming_matches ;;
     let '(upcoming_matches, upcoming_fallback) := r3 in
     processed_matches <- for_each process_match live_matches ;;
     processed_upcoming <- for_each process_upcoming upcoming_matches ;;
     competitions <-
       (if truthy_str (Some search_query)
        then l <- read (Shared competitions) ;;
             ret (Fresh (List.filter (search_keeps search_query) l))
        else ret (Shared competitions)) ;;
     competitions <-
       (if truthy_str (Some filter_country)
        then l <- read competitions ;;
             ret (Fresh (List.filter (country_keeps filter_country) l))
        else ret competitions) ;;
     competitions <-
       (if String.eqb sort_by "name" then sort_in_place name_of competitions
        else if String.eqb sort_by "country" then sort_in_place area_name_of competitions
        else ret competitions) ;;
     shown <- read competitions ;;
     r4 <- get_competitions_data ;;
     let all_competitions := r4.1 in
     all_list <- read (Shared all_competitions) ;;
     let countries :=
       sorted_set (List.filter (fun n => truthy_str (Some n))
                               (List.map area_name_of all_list)) in
     let status_message :=
       if (using_fallback : bool) then Some fallback_notice else None in
     ret {| ctx_competitions := shown;
            ctx_countries := countries;
            ctx_current_search := arg args "search" "";
            ctx_current_sort := sort_by;
            ctx_current_country := filter_country;
            ctx_status_message := status_message;
            ctx_error_message := None;
            ctx_live_matches := Some processed_matches;
            ctx_upcoming_matches := Some processed_upcoming |})
    (fun _ =>
       fb <- gets (fun w => deref w RefFallbackCompetitions) ;;
       ret {| ctx_competitions := take 5 fb;
              ctx_countries := ["England"; "Spain"; "Germany"; "Italy"; "France"];
              ctx_current_search := arg args "search" "";
              ctx_current_sort := arg args "sort" "name";
              ctx_current_country := arg args "country" "";
              ctx_status_message := None;
              ctx_error_message :=
                Some "Unable to load data. Showing sample competitions.";
              ctx_live_matches := None;
              ctx_upcoming_matches := None |}).

End Program.

(** ** The static reference pages *)

(** *** Teams of a competition *)

Record RosterTeam := {
  roster_name : string;
  roster_stadium : string;
  roster_founded : string
}.

Definition mk_roster (n s f : string) : RosterTeam :=
  {| roster_name := n; roster_stadium := s; roster_founded := f |}.

(** The dictionary [competition_teams] of [get_competition_teams]. *)
Definition competition_teams : gmap string (list RosterTeam) :=
  <[ "premier league" :=
       [ mk_roster "Arsenal" "Emirates Stadium" "1886";
         mk_roster "Chelsea" "Stamford Bridge" "1905";
         mk_roster "Liverpool" "Anfield" "1892";
         mk_roster "Manchester United" "Old Trafford" "1878";
         mk_roster "Manchester City" "Etihad Stadium" "1880";
         mk_roster "Tottenham" "Tottenham Hotspur Stadium" "1882" ] ]> (
  <[ "la liga" :=
       [ mk_roster "Real Madrid" "Santiago Bernabéu" "1902";
         mk_roster "Barcelona" "Camp Nou" "1899";
         mk_roster "Atletico Madrid" "Wanda Metropolitano" "1903";
         mk_roster "Sevilla" "Ramón Sánchez Pizjuán" "1890";
         mk_roster "Valencia" "Mestalla" "1919";
         mk_roster "Real Sociedad" "Reale Arena" "1909" ] ]> (
  <[ "bundesliga" :=
       [ mk_roster "Bayern Munich" "Allianz Arena" "1900";
         mk_roster "Borussia Dortmund" "Signal Iduna Park" "1909";
         mk_roster "RB Leipzig" "Red Bull Arena" "2009";
         mk_roster "Bayer Leverkusen" "BayArena" "1904";
         mk_roster "Eintracht Frankfurt" "Deutsche Bank Park" "1899";
         mk_roster "Borussia Mönchengladbach" "Borussia-Park" "1900" ] ]> (
  <[ "serie a" :=
       [ mk_roster "Juventus" "Allianz Stadium" "1897";
         mk_roster "AC Milan" "San Siro" "1899";
         mk_roster "Inter Milan" "San Siro" "1908";
         mk_roster "AS Roma" "Stadio Olimpico" "1927";
         mk_roster "Napoli" "Stadio Diego Armando Maradona" "1926";
         mk_roster "Lazio" "Stadio Olimpico" "1900" ] ]> (
  <[ "ligue 1" :=
       [ mk_roster "Paris Saint-Germain" "Parc des Princes" "1970";
         mk_roster "Marseille" "Stade Vélodrome" "1899";
         mk_roster "Lyon" "Groupama Stadium" "1950";
         mk_roster "Monaco" "Stade Louis II" "1924";
         mk_roster "Nice" "Allianz Riviera" "1904";
         mk_roster "Lille" "Stade Pierre-Mauroy" "1944" ] ]> ∅)))).

Definition get_competition_teams `{PyRuntime} (competition_name : string)
  : list RosterTeam :=
  let comp_key := str_lower competition_name in
  default [] (competition_teams !! comp_key).

(** The keyword arguments of [render_template("competition.html", ...)]. *)
Record CompetitionPage := {
  page_competition_name : string;
  page_teams : option (list RosterTeam)
}.

(** The route [/competition/<competition_name>]; [str_title] is
    [str.title], which like [str.lower] needs the Unicode tables. *)
Definition competition_details `{PyRuntime} (str_title : string -> string)
  (competition_name : string) : CompetitionPage :=
  let teams := get_competition_teams competition_name in
  let display_name := str_title (str_replace "-" " " competition_name) in
  if truthy_list (Some teams)
  then {| page_competition_name := display_name; page_teams := Some teams |}
  else {| page_competition_name := display_name; page_teams := None |}.

(** *** Team profiles *)

Record TeamProfile := {
  profile_name : string;
  profile_country : string;
  profile_league : string;
  profile_stadium : string;
  profile_founded : string;
  profile_colors : string;
  profile_nickname : string
}.

(** The dictionary [teams] of [get_team_info]. *)
Definition teams : gmap string TeamProfile :=
  <[ "manchester united" :=
       {| profile_name := "Manchester United"; profile_country := "England";
          profile_league := "Premier League"; profile_stadium := "Old Trafford";
          profile_founded := "1878"; profile_colors := "Red, White";
          profile_nickname := "The Red Devils" |} ]> (
  <[ "barcelona" :=
       {| profile_name := "FC Barcelona"; profile_country := "Spain";
          profile_league := "La Liga"; profile_stadium := "Camp Nou";
          profile_founded := "1899"; profile_colors := "Blue, Red";
          profile_nickname := "Barça" |} ]> (
  <[ "real madrid" :=
       {| profile_name := "Real Madrid"; profile_country := "Spain";
          profile_league := "La Liga"; profile_stadium := "Santiago Bernabéu";
          profile_founded := "1902"; profile_colors := "White";
          profile_nickname := "Los Blancos" |} ]> (
  <[ "bayern munich" :=
       {| profile_name := "FC Bayern Munich"; profile_country := "Germany";
          profile_league := "Bundesliga"; profile_stadium := "Allianz Arena";
          profile_founded := "1900"; profile_colors := "Red, White";
          profile_nickname := "Die Bayern" |} ]> (
  <[ "liverpool" :=
       {| profile_name := "Liverpool FC"; profile_country := "England";
          profile_league := "Premier League"; profile_stadium := "Anfield";
          profile_founded := "1892"; profile_colors := "Red";
          profile_nickname := "The Reds" |} ]> ∅)))).

Definition get_team_info `{PyRuntime} (team_name : string) : option TeamProfile :=
  let team_key := str_lower team_name in
  teams !! team_key.

(** The keyword arguments of [render_template("team.html", ...)]: the
    profile, and the requested name when there is none. *)
Record TeamPage := {
  page_team : option TeamProfile;
  page_team_name : option string
}.

(** The route [/team/<team_name>]; a profile is a dictionary with seven
    keys, so it is true whenever there is one. *)
Definition team_details `{PyRuntime} (team_name : string) : TeamPage :=
  match get_team_info team_name with
  | Some team_info => {| page_team := Some team_info; page_team_name := None |}
  | None => {| page_team := None; page_team_name := Some team_name |}
  end.

(** ** A small runtime

    An implementation of the interface, enough to run the program on
    concrete inputs: ASCII lower-casing, timestamps in extended format with
    seconds and an optional [+HH:MM] or [-HH:MM] offset, the proleptic
    Gregorian calendar. *)

Definition digit_val (c : ascii) : option Z :=
  let n := N_of_ascii c in
  if ((48 <=? n) && (n <=? 57))%N then Some (Z.of_N n - 48) else None.

Definition parse2 (a b : ascii) : option Z :=
  x ← digit_val a; y ← digit_val b; Some (10 * x + y).

Definition parse4 (a b c d : ascii) : option Z :=
  x ← parse2 a b; y ← parse2 c d; Some (100 * x + y).

Definition valid_fieldsb (y mo d h mi s : Z) : bool :=
  (1 <=? y) && (y <=? 9999) && (1 <=? mo) && (mo <=? 12) &&
  (1 <=? d) && (d <=? days_in_month y mo) &&
  (0 <=? h) && (h <? 24) && (0 <=? mi) && (mi <? 60) && (0 <=? s) && (s <? 60).

(** The offset in minutes: absent, or a sign and [HH:MM]. *)
Definition parse_offset (l : list ascii) : option (option Z) :=
  match l with
  | [] => Some None
  | [sg; h1; h2; c; m1; m2] =>
      h ← parse2 h1 h2; m ← parse2 m1 m2;
      if Ascii.eqb c ":" && (h <? 24) && (m <? 60) then
        if Ascii.eqb sg "+" then Some (Some (60 * h + m))
        else if Ascii.eqb sg "-" then Some (Some (- (60 * h + m)))
        else None
      else None
  | _ => None
  end.

Definition parse_datetime (l : list ascii) : option datetime :=
  match l with
  | y1 :: y2 :: y3 :: y4 :: s1 :: o1 :: o2 :: s2 :: d1 :: d2 :: s3 ::
    h1 :: h2 :: s4 :: m1 :: m2 :: s5 :: c1 :: c2 :: rest =>
      y ← parse4 y1 y2 y3 y4; mo ← parse2 o1 o2; d ← parse2 d1 d2;
      h ← parse2 h1 h2; mi ← parse2 m1 m2; s ← parse2 c1 c2;
      off ← parse_offset rest;
      if Ascii.eqb s1 "-" && Ascii.eqb s2 "-" && Ascii.eqb s3 "T" &&
         Ascii.eqb s4 ":" && Ascii.eqb s5 ":" && valid_fieldsb y mo d h mi s
      then Some {| year := y; month := mo; day := d; hour := h; minute := mi;
                   second := s; microsecond := 0; tzoffset := off |}
      else None
  | _ => None
  end.

Definition small_fromisoformat (s : string) : result datetime :=
  match parse_datetime (list_ascii_of_string s) with
  | Some dt => Ok dt
  | None => Raise ValueError
  end.

Definition small_isoformat (dt : datetime) : string :=
  iso_seconds (year dt) (month dt) (day dt) (hour dt) (minute dt) (second dt) ++
  match tzoffset dt with
  | None => ""
  | Some off =>
      (if off <? 0 then "-" else "+") ++
      fmt2 (Z.abs off / 60) ++ ":" ++ fmt2 (Z.abs off mod 60)
  end.

(** Day number of a civil date and back (days since 1970-01-01). *)
Definition days_from_civil (y m d : Z) : Z :=
  let y' := if m <=? 2 then y - 1 else y in
  let era := y' / 400 in
  let yoe := y' - era * 400 in
  let doy := (153 * (m + (if 2 <? m then -3 else 9)) + 2) / 5 + d - 1 in
  let doe := yoe * 365 + yoe / 4 - yoe / 100 + doy in
  era * 146097 + doe - 719468.

Definition civil_from_days (z : Z) : Z * Z * Z :=
  let z := z + 719468 in
  let era := z / 146097 in
  let doe := z - era * 146097 in
  let yoe := (doe - doe / 1460 + doe / 36524 - doe / 146096) / 365 in
  let doy := doe - (365 * yoe + yoe / 4 - yoe / 100) in
  let mp := (5 * doy + 2) / 153 in
  let d := doy - (153 * mp + 2) / 5 + 1 in
  let m := mp + (if mp <? 10 then 3 else -9) in
  (yoe + era * 400 + (if m <=? 2 then 1 else 0), m, d).

Definition small_dt_add (dt : datetime) (td : timedelta) : datetime :=
  let secs := hour dt * 3600 + minute dt * 60 + second dt + td_hours td * 3600 in
  let dn := days_from_civil (year dt) (month dt) (day dt) + td_days td + secs / 86400 in
  let r := secs mod 86400 in
  let '(y, m, d) := civil_from_days dn in
  {| year := y; month := m; day := d;
     hour := r / 3600; minute := r mod 3600 / 60; second := r mod 60;
     microsecond := microsecond dt; tzoffset := tzoffset dt |}.

(** ** Vocabulary of the specification *)

(** The request [get_competitions_data] sends. *)
Definition competitions_request (e : Env) : Request :=
  {| url := API_URL;
     headers := if truthy_str (API_KEY e)
                then {[ "X-Auth-Token" := default "" (API_KEY e) ]} else ∅;
     params := ∅;
     timeout := 10 |}.

(** The request for the matches between two dates. *)
Definition matches_request (e : Env) (date_from date_to : datetime) : Request :=
  {| url := MATCHES_URL;
     headers := {[ "X-Auth-Token" := default "" (API_KEY e) ]};
     params := <[ "dateFrom" := strftime "%Y-%m-%d" date_from ]>
                 (<[ "dateTo" := strftime "%Y-%m-%d" date_to ]> ∅);
     timeout := 10 |}.

(** The cache holds something and it is younger than [CACHE_DURATION]. *)
Definition cache_fresh (now : Q) (c : Cache) : bool :=
  truthy_list (data c) && Qltb (now - timestamp c) CACHE_DURATION.

(** The world after one more request went out. *)
Definition logged (rq : Request) (w : World) : World :=
  {| api_cache := api_cache w; fallback_competitions := fallback_competitions w;
     sent := sent w ++ [rq]; ticks := ticks w |}.

(** The world after both keys of the cache were assigned. *)
Definition cached (l : list Competition) (t : Q) (w : World) : World :=
  {| api_cache := {| data := Some l; timestamp := t |};
     fallback_competitions := fallback_competitions w;
     sent := sent w; ticks := ticks w |}.

(** A remote call that did not deliver: it raised, or answered with a status
    other than 200, or with a body that is not a JSON object. *)
Definition remote_failure (r : result Response) : Prop :=
  match r with
  | Raise _ => True
  | Ok resp =>
      status_code resp <> 200 \/
      (exists x, body resp = Raise x) \/ body resp = Ok JOther
  end.

(** A remote call that delivered the document [d] with status 200. *)
Definition remote_success (r : result Response) (d : Document) : Prop :=
  exists resp, r = Ok resp /\ status_code resp = 200 /\ body resp = Ok (JObject d).

(** A credential is configured. *)
Definition credential (e : Env) : Prop := truthy_str (API_KEY e) = true.

(** The states the process can be in: the module as loaded, then any
    sequence of calls of the fetch operations and of the handler. The two
    other routes read constants only. *)
Inductive step `{PyRuntime} (e : Env) : World -> World -> Prop :=
| step_competitions w : step e w (get_competitions_data e w).2
| step_live w : step e w (get_live_matches e w).2
| step_upcoming w : step e w (get_upcoming_matches e w).2
| step_home args w : step e w (home args e w).2.

Definition reachable `{PyRuntime} (e : Env) (w : World) : Prop :=
  rtc (step e) initial_world w.

(** [s] contains [t] when letter case is ignored. *)
Definition contains_ignoring_case `{PyRuntime} (t s : string) : Prop :=
  exists pre post, str_lower s = pre ++ str_lower t ++ post.

(** [a <= b] in the order of [str]. *)
Definition str_le (a b : string) : Prop := String.leb a b = true.

(** A list whose keys never decrease from left to right. *)
Definition nondecreasing {A} (key : A -> string) (l : list A) : Prop :=
  StronglySorted (fun a b => str_le (key a) (key b)) l.

(** The order the request asks for. *)
Definition sort_choice (sort_by : string) (l : list Competition) : list Competition :=
  if String.eqb sort_by "name" then sort_by_name l
  else if String.eqb sort_by "country" then sort_by_country l
  else l.

(** ** How a computation may change the world

    [respects R m]: whatever the surroundings, running [m] takes a world to
    one related to it by [R]. For a preorder [R] this goes through [bind]
    and [try_except], so it is proved one statement of the program at a
    time. *)

Definition respects {A} (R : relation World) (m : M A) : Prop :=
  forall e w, R w (m e w).2.

(** Only the cache and the fallback list matter to [R]. *)
Class Framed (R : relation World) : Prop :=
  framed : forall w s t,
    R w {| api_cache := api_cache w;
           fallback_competitions := fallback_competitions w;
           sent := s; ticks := t |}.

(** The cache and the fallback list are exactly as they were. *)
Definition same_store (w w' : World) : Prop :=
  api_cache w' = api_cache w /\
  fallback_competitions w' = fallback_competitions w.

(** The fallback list has the entries it had, in some order. *)
Definition same_fallback_entries (w w' : World) : Prop :=
  fallback_competitions w' ≡ₚ fallback_competitions w.

(** Every character of [s] passes the test [f]. *)
Fixpoint str_all (f : ascii -> bool) (s : string) : bool :=
  match s with
  | EmptyString => true
  | String c s' => f c && str_all f s'
  end.

(** What the two filters are meant to select. *)
Definition search_hit `{PyRuntime} (search : string) (c : Competition) : Prop :=
  contains_ignoring_case search (name_of c) \/
  contains_ignoring_case search (code_of c).

Definition country_hit `{PyRuntime} (country : string) (c : Competition) : Prop :=
  str_lower (area_name_of c) = str_lower country.

(** The flag a fetch operation returned. *)
Definition flag_of {A} (run : result (A * bool) * World) : option bool :=
  match run.1 with
  | Ok (_, b) => Some b
  | Raise _ => None
  end.

(** ** Sample surroundings *)

Definition noon : datetime :=
  {| year := 2025; month := 1; day := 23; hour := 12; minute := 0; second := 0;
     microsecond := 0; tzoffset := None |}.

(** A clock that advances one second per reading, a fixed service. *)
Definition sample_env (key : option string)
  (net : nat -> Request -> result Response) : Env :=
  {| API_KEY := key;
     network := net;
     clock_time := fun k => inject_Z (1737633600 + Z.of_nat k);
     clock_now := fun _ => noon;
     import_now := fun _ => noon |}.

Definition net_down : nat -> Request -> result Response :=
  fun _ _ => Raise (RequestException "connection refused").

Definition net_status (code : Z) : nat -> Request -> result Response :=
  fun _ _ => Ok {| status_code := code; body := Raise JSONDecodeError |}.

Definition net_ok (d : Document) : nat -> Request -> result Response :=
  fun _ _ => Ok {| status_code := 200; body := Ok (JObject d) |}.

Definition no_competitions : Document :=
  {| doc_competitions := Some []; doc_matches := None |}.

Definition two_competitions : Document :=
  {| doc_competitions :=
       Some [ mk_competition "Serie A" "SA" "Italy" "TIER_ONE";
              mk_competition "La Liga" "PD" "Spain" "TIER_ONE" ];
     doc_matches := None |}.

Definition no_matches : Document :=
  {| doc_competitions := None; doc_matches := Some [] |}.

Definition twelve_matches : Document :=
  {| doc_competitions := None;
     doc_matches :=
       Some (replicate 12
               (upcoming_fixture "Home" "Away" "2025-01-23T15:00:00Z" "Cup")) |}.

(** A service that gives its answers in order, and then is unreachable. *)
Definition staged (answers : list (result Response))
  : nat -> Request -> result Response :=
  fun k _ => default (Raise (RequestException "connection refused")) (answers !! k).

Definition ok_with (d : Document) : result Response :=
  Ok {| status_code := 200; body := Ok (JObject d) |}.

Definition unavailable : result Response :=
  Ok {| status_code := 503; body := Raise JSONDecodeError |}.

(** The service delivers competitions, and for the two match requests it
    delivers matches that happen to be the sample ones. *)
Definition env_authoritative `{PyRuntime} : Env :=
  sample_env (Some "token")
    (staged [ ok_with two_competitions;
              ok_with {| doc_competitions := None;
                         doc_matches :=
                           Some (FALLBACK_MATCHES (sample_env None net_down)) |};
              ok_with {| doc_competitions := None;
                         doc_matches := Some (upcoming_fixtures noon noon noon) |} ]).

(** The service delivers competitions and fails for the two match requests. *)
Definition env_degraded : Env :=
  sample_env (Some "token")
    (staged [ ok_with two_competitions; unavailable; unavailable ]).

(** ** More vocabulary *)

(** What the two formatting operations return. *)
Definition time_text `{PyRuntime} (s : string) : string :=
  match fromisoformat (str_replace "Z" "+00:00" s) with
  | Ok utc_time => strftime "%H:%M" utc_time
  | Raise _ => "TBD"
  end.

Definition date_text `{PyRuntime} (s : string) : string :=
  match fromisoformat (str_replace "Z" "+00:00" s) with
  | Ok utc_time => strftime "%B %d, %Y" utc_time
  | Raise _ => "Date TBD"
  end.

(** The entry the handler builds for a live match and for an upcoming one. *)
Definition shown_match `{PyRuntime} (m : Match) : ProcessedMatch :=
  {| pm_homeTeam := team_name_of (homeTeam m);
     pm_awayTeam := team_name_of (awayTeam m);
     pm_homeScore := full_time_of m ≫= ft_home;
     pm_awayScore := full_time_of m ≫= ft_away;
     pm_status := get_match_status_display (default "UNKNOWN" (status m));
     pm_competition := default "Unknown" (competition m ≫= cref_name);
     pm_time := time_text (default "" (utcDate m));
     pm_is_live := bool_decide (status m = Some "IN_PLAY") |}.

Definition shown_upcoming `{PyRuntime} (m : Match) : ProcessedUpcoming :=
  {| pu_homeTeam := team_name_of (homeTeam m);
     pu_awayTeam := team_name_of (awayTeam m);
     pu_competition := default "Unknown" (competition m ≫= cref_name);
     pu_date := date_text (default "" (utcDate m));
     pu_time := time_text (default "" (utcDate m)) |}.

(** The request asks for the list as the fetch returned it: no search term
    and no country. *)
Definition unfiltered `{PyRuntime} (args : gmap string string) : bool :=
  negb (truthy_str (Some (str_lower (arg args "search" "")))) &&
  negb (truthy_str (Some (arg args "country" ""))).

(** The request asks for one of the two orders. *)
Definition sorting (args : gmap string string) : bool :=
  String.eqb (arg args "sort" "name") "name" ||
  String.eqb (arg args "sort" "name") "country".

(** The competitions a request is shown, given the list it starts from. *)
Definition shown_competitions `{PyRuntime} (args : gmap string string)
  (l : list Competition) : list Competition :=
  sort_choice (arg args "sort" "name")
    (filter_by_country (arg args "country" "")
       (filter_by_search (arg args "search" "") l)).

(** The countries offered for filtering, given all competitions. *)
Definition shown_countries (l : list Competition) : list string :=
  sorted_set (List.filter (fun n => truthy_str (Some n)) (List.map area_name_of l)).

(** A request the program may send: ten seconds of timeout, and either the
    competitions, or the matches with a token that is not empty. *)
Definition well_formed_request (rq : Request) : Prop :=
  timeout rq = 10 /\
  (url rq = API_URL \/
   (url rq = MATCHES_URL /\ truthy_str (headers rq !! "X-Auth-Token") = true)).

(** Every character is ASCII. *)
Definition is_ascii (c : ascii) : bool := (N_of_ascii c <? 128)%N.


(** The keys of the two dictionaries of the reference pages. *)
Definition competition_keys : list string :=
  [ "premier league"; "la liga"; "bundesliga"; "serie a"; "ligue 1" ].

Definition team_keys : list string :=
  [ "manchester united"; "barcelona"; "real madrid"; "bayern munich"; "liverpool" ].

(** On text that is all ASCII the runtime lowers as ASCII does. *)
Definition lowers_ascii `{PyRuntime} : Prop :=
  forall s, str_all is_ascii s = true -> str_lower s = str_lower_ascii s.

(** ASCII title-casing, as [str.title] does it on ASCII text: the first
    letter of every run of letters in upper case, the others in lower case. *)
Definition ascii_upper (c : ascii) : ascii :=
  let n := N_of_ascii c in
  if ((97 <=? n) && (n <=? 122))%N then ascii_of_N (n - 32) else c.

Definition ascii_letter (c : ascii) : bool :=
  let n := N_of_ascii c in
  (((65 <=? n) && (n <=? 90)) || ((97 <=? n) && (n <=? 122)))%N.

Fixpoint str_title_from (inside : bool) (s : string) : string :=
  match s with
  | EmptyString => EmptyString
  | String c s' =>
      if ascii_letter c
      then String (if inside then ascii_lower c else ascii_upper c)
                  (str_title_from true s')
      else String c (str_title_from false s')
  end.

Definition str_title_ascii (s : string) : string := str_title_from false s.

(** * Properties *)

(** ** The small runtime implements the interface *)

Lemma digit_val_digit (k : Z) : 0 <= k <= 9 -> digit_val (digit k) = Some k.
Proof.
  intros Hk.
  assert (Hcases : k = 0 \/ k = 1 \/ k = 2 \/ k = 3 \/ k = 4 \/
                   k = 5 \/ k = 6 \/ k = 7 \/ k = 8 \/ k = 9) by lia.
  repeat (destruct Hcases as [-> | Hcases]; [reflexivity |]).
  subst k. reflexivity.
Qed.

Lemma parse2_fmt2 (n : Z) :
  0 <= n < 100 -> parse2 (digit (n / 10)) (digit (n mod 10)) = Some n.
Proof.
  intros Hn. unfold parse2.
  rewrite !digit_val_digit by (Z.div_mod_to_equations; lia).
  cbn. f_equal. Z.div_mod_to_equations; lia.
Qed.

Lemma parse4_fmt4 (n : Z) :
  0 <= n < 10000 ->
  parse4 (digit (n / 1000)) (digit (n / 100 mod 10))
         (digit (n / 10 mod 10)) (digit (n mod 10)) = Some n.
Proof.
  intros Hn. unfold parse4, parse2.
  rewrite !digit_val_digit by (Z.div_mod_to_equations; lia).
  cbn. f_equal. Z.div_mod_to_equations; lia.
Qed.

Lemma valid_fieldsb_true (y mo d h mi s : Z) :
  valid_fields y mo d h mi s -> valid_fieldsb y mo d h mi s = true.
Proof.
  unfold valid_fields, valid_fieldsb. intros H.
  repeat (apply andb_true_intro; split);
    first [ apply Z.leb_le; lia | apply Z.ltb_lt; lia ].
Qed.

Lemma small_fromisoformat_utc (y mo d h mi s : Z) :
  valid_fields y mo d h mi s ->
  small_fromisoformat (iso_seconds y mo d h mi s ++ "+00:00") =
  Ok {| year := y; month := mo; day := d; hour := h; minute := mi;
        second := s; microsecond := 0; tzoffset := Some 0 |}.
Proof.
  intros Hv. pose proof (valid_fieldsb_true _ _ _ _ _ _ Hv) as Hb.
  destruct Hv as (Hy & Hmo & Hd & Hh & Hmi & Hs).
  assert (Hd' : d <= 31).
  { unfold days_in_month in Hd.
    repeat match type of Hd with context [if ?b then _ else _] => destruct b end; lia. }
  unfold small_fromisoformat, iso_seconds, fmt4, fmt2.
  cbv beta iota fix delta [String.append list_ascii_of_string parse_datetime].
  rewrite parse4_fmt4 by lia.
  rewrite !parse2_fmt2 by lia.
  cbn [mbind option_bind]. rewrite Hb. reflexivity.
Qed.

#[export] Instance small_runtime : PyRuntime := {|
  str_lower := str_lower_ascii;
  fromisoformat := small_fromisoformat;
  isoformat := small_isoformat;
  dt_add := small_dt_add;
  fromisoformat_utc := small_fromisoformat_utc
|}.

(** ** What one call of a fetch operation does *)

Lemma get_competitions_data_run (e : Env) (w : World) :
  get_competitions_data e w =
    let now := clock_time e (ticks w) in
    if cache_fresh now (api_cache w) then (Ok (RefCacheData, false), tick w)
    else
      let rq := competitions_request e in
      let w1 := logged rq (tick w) in
      match network e (length (sent w)) rq with
      | Ok resp =>
          if status_code resp =? 200 then
            match body resp with
            | Ok (JObject d) =>
                (Ok (RefCacheData, false),
                 cached (default [] (doc_competitions d)) now w1)
            | _ => (Ok (RefFallbackCompetitions, true), w1)
            end
          else (Ok (RefFallbackCompetitions, true), w1)
      | Raise _ => (Ok (RefFallbackCompetitions, true), w1)
      end.
Proof.
  unfold get_competitions_data, cache_fresh, bind, time_time, gets, try_except, asks,
    requests_get, response_json, lift, get_competitions_key, set_api_cache_data,
    set_api_cache_timestamp, modify, ret, raise, competitions_request, logged, cached.
  cbn [fst snd tick api_cache data timestamp sent ticks fallback_competitions].
  destruct (truthy_list _ && _); [reflexivity |].
  destruct (network _ _ _) as [resp | x]; [| reflexivity].
  destruct (status_code resp =? 200); [| reflexivity].
  destruct (body resp) as [[d |] | x]; reflexivity.
Qed.

Section Runs.
Context {rt : PyRuntime}.

Lemma get_live_matches_run (e : Env) (w : World) :
  get_live_matches e w =
    if truthy_str (API_KEY e) then
      let now := clock_now e (ticks w) in
      let rq := matches_request e now now in
      let w1 := logged rq (tick w) in
      match network e (length (sent w)) rq with
      | Ok resp =>
          if status_code resp =? 200 then
            match body resp with
            | Ok (JObject d) => (Ok (take 10 (default [] (doc_matches d)), false), w1)
            | _ => (Ok (FALLBACK_MATCHES e, true), w1)
            end
          else (Ok (FALLBACK_MATCHES e, true), w1)
      | Raise _ => (Ok (FALLBACK_MATCHES e, true), w1)
      end
    else (Ok (FALLBACK_MATCHES e, true), w).
Proof.
  unfold get_live_matches, bind, datetime_now, try_except, asks, requests_get,
    response_json, lift, get_matches_key, ret, raise, matches_request, logged.
  destruct (truthy_str (API_KEY e)); [| reflexivity].
  cbn [negb fst snd tick api_cache sent ticks fallback_competitions].
  destruct (network _ _ _) as [resp | x]; [| reflexivity].
  destruct (status_code resp =? 200); [| reflexivity].
  destruct (body resp) as [[d |] | x]; reflexivity.
Qed.

Lemma get_upcoming_matches_run (e : Env) (w : World) :
  get_upcoming_matches e w =
    let k := ticks w in
    let upcoming :=
      upcoming_fixtures (clock_now e k) (clock_now e (S k)) (clock_now e (S (S k))) in
    let w3 := tick (tick (tick w)) in
    if truthy_str (API_KEY e) then
      let rq := matches_request e (dt_add (clock_now e (3 + k)%nat) (days 1))
                                  (dt_add (clock_now e (4 + k)%nat) (days 7)) in
      let w5 := logged rq (tick (tick w3)) in
      match network e (length (sent w)) rq with
      | Ok resp =>
          if status_code resp =? 200 then
            match body resp with
            | Ok (JObject d) =>
                let real_matches := default [] (doc_matches d) in
                if truthy_list (Some real_matches)
                then (Ok (take 5 real_matches, false), w5)
                else (Ok (upcoming, true), w5)
            | _ => (Ok (upcoming, true), w5)
            end
          else (Ok (upcoming, true), w5)
      | Raise _ => (Ok (upcoming, true), w5)
      end
    else (Ok (upcoming, true), w3).
Proof.
  unfold get_upcoming_matches, bind, datetime_now, try_except, asks, requests_get,
    response_json, lift, get_matches_key, ret, raise, matches_request, logged.
  cbn [fst snd tick api_cache sent ticks fallback_competitions Nat.add].
  destruct (truthy_str (API_KEY e)); [| reflexivity].
  destruct (network _ _ _) as [resp | x]; [| reflexivity].
  destruct (status_code resp =? 200); [| reflexivity].
  destruct (body resp) as [[d |] | x]; try reflexivity.
  cbn zeta. destruct (truthy_list _); reflexivity.
Qed.

End Runs.

(** ** The order of [str] *)

Lemma ascii_compare_refl (a : ascii) : Ascii.compare a a = Eq.
Proof. apply N.compare_refl. Qed.

Lemma ascii_compare_lt_trans (a b c : ascii) :
  Ascii.compare a b = Lt -> Ascii.compare b c = Lt -> Ascii.compare a c = Lt.
Proof.
  unfold Ascii.compare. rewrite !N.compare_lt_iff. apply N.lt_trans.
Qed.

Lemma str_compare_refl (s : string) : String.compare s s = Eq.
Proof.
  induction s as [| a s IH]; [reflexivity |].
  cbn. rewrite ascii_compare_refl. exact IH.
Qed.

Lemma str_compare_lt_trans (a b c : string) :
  String.compare a b = Lt -> String.compare b c = Lt -> String.compare a c = Lt.
Proof.
  revert b c. induction a as [| x a IH]; intros [| y b] [| z c]; cbn; try congruence.
  destruct (Ascii.compare x y) eqn:Hxy; try congruence.
  - apply Ascii.compare_eq_iff in Hxy. subst y.
    destruct (Ascii.compare x z); try congruence. apply IH.
  - intros _. destruct (Ascii.compare y z) eqn:Hyz; try congruence.
    + apply Ascii.compare_eq_iff in Hyz. subst z. now rewrite Hxy.
    + now rewrite (ascii_compare_lt_trans _ _ _ Hxy Hyz).
Qed.

Lemma str_le_refl (a : string) : str_le a a.
Proof. unfold str_le, String.leb. now rewrite str_compare_refl. Qed.

Lemma str_le_trans (a b c : string) : str_le a b -> str_le b c -> str_le a c.
Proof.
  unfold str_le, String.leb. intros Hab Hbc.
  destruct (String.compare a b) eqn:Eab; try discriminate.
  - apply String.compare_eq_iff in Eab. now subst b.
  - destruct (String.compare b c) eqn:Ebc; try discriminate.
    + apply String.compare_eq_iff in Ebc. subst c. now rewrite Eab.
    + now rewrite (str_compare_lt_trans _ _ _ Eab Ebc).
Qed.

(** [b < a] fails exactly when [a <= b]: the order is total. *)
Lemma str_lt_false_le (a b : string) : str_lt b a = false <-> str_le a b.
Proof.
  unfold str_lt, str_le, String.ltb, String.leb.
  rewrite (String.compare_antisym a b).
  destruct (String.compare b a); cbn; intuition congruence.
Qed.

Lemma str_lt_true_le (a b : string) : str_lt a b = true -> str_le a b.
Proof.
  unfold str_lt, str_le, String.ltb, String.leb.
  destruct (String.compare a b); congruence.
Qed.

(** ** The sort *)

Section Sorting.
Context {A : Type} (key : A -> string).

Lemma sort_insert_perm (x : A) (l : list A) : sort_insert key x l ≡ₚ x :: l.
Proof.
  induction l as [| y l IH]; cbn; [reflexivity |].
  destruct (str_lt (key y) (key x)); [| reflexivity].
  rewrite IH. apply Permutation_swap.
Qed.

Lemma list_sort_perm (l : list A) : list_sort key l ≡ₚ l.
Proof.
  induction l as [| x l IH]; cbn; [reflexivity |].
  rewrite sort_insert_perm. now rewrite IH.
Qed.

Lemma sort_insert_sorted (x : A) (l : list A) :
  nondecreasing key l -> nondecreasing key (sort_insert key x l).
Proof.
  unfold nondecreasing. induction 1 as [| y l Hs IH Hy]; cbn.
  - repeat constructor.
  - destruct (str_lt (key y) (key x)) eqn:Hlt.
    + constructor; [exact IH |].
      rewrite sort_insert_perm. constructor; [| exact Hy].
      now apply str_lt_true_le.
    + apply str_lt_false_le in Hlt.
      constructor; [now constructor |].
      constructor; [exact Hlt |].
      eapply Forall_impl; [exact Hy |].
      intros z Hz. eapply str_le_trans; eassumption.
Qed.

Lemma list_sort_sorted (l : list A) : nondecreasing key (list_sort key l).
Proof.
  induction l as [| x l IH]; cbn; [constructor |].
  now apply sort_insert_sorted.
Qed.

(** Inserting in front of elements that are all at least as large leaves
    the element in front. *)
Lemma sort_insert_head (x : A) (l : list A) :
  Forall (fun y => str_le (key x) (key y)) l -> sort_insert key x l = x :: l.
Proof.
  destruct 1 as [| y l Hy _]; cbn; [reflexivity |].
  apply str_lt_false_le in Hy. now rewrite Hy.
Qed.

Lemma list_sort_fixed (l : list A) : nondecreasing key l -> list_sort key l = l.
Proof.
  unfold nondecreasing. induction 1 as [| x l Hs IH Hx]; cbn; [reflexivity |].
  rewrite IH. now apply sort_insert_head.
Qed.

End Sorting.

Section Stability.
Context {A : Type} (key : A -> string).

Lemma str_lt_irrefl (a : string) : str_lt a a = false.
Proof. unfold str_lt, String.ltb. now rewrite str_compare_refl. Qed.

Lemma sort_insert_stable (k : string) (x : A) (l : list A) :
  filter (fun y => key y = k) (sort_insert key x l) =
  filter (fun y => key y = k) (x :: l).
Proof.
  induction l as [| y l IH]; [reflexivity |].
  cbn [sort_insert]. destruct (str_lt (key y) (key x)) eqn:Hlt; [| reflexivity].
  rewrite (filter_cons _ y), IH, !filter_cons.
  destruct (decide (key y = k)) as [Hy | Hy], (decide (key x = k)) as [Hx | Hx];
    try reflexivity.
  rewrite Hy, Hx, str_lt_irrefl in Hlt. discriminate.
Qed.

(** The sort is stable: the elements with one and the same key keep the
    order they had. *)
Lemma list_sort_stable (k : string) (l : list A) :
  filter (fun y => key y = k) (list_sort key l) = filter (fun y => key y = k) l.
Proof.
  induction l as [| x l IH]; [reflexivity |].
  cbn [list_sort]. rewrite sort_insert_stable, !filter_cons, IH. reflexivity.
Qed.

End Stability.

Section Respects.
Context (R : relation World) `{!PreOrder R} `{!Framed R}.

Lemma respects_ret {A} (a : A) : respects R (ret a).
Proof. intros e w. reflexivity. Qed.

Lemma respects_raise {A} (x : exn) : respects R (@raise A x).
Proof. intros e w. reflexivity. Qed.

Lemma respects_lift {A} (r : result A) : respects R (lift r).
Proof. intros e w. reflexivity. Qed.

Lemma respects_asks {A} (f : Env -> A) : respects R (asks f).
Proof. intros e w. reflexivity. Qed.

Lemma respects_gets {A} (f : World -> A) : respects R (gets f).
Proof. intros e w. reflexivity. Qed.

Lemma respects_modify (f : World -> World) :
  (forall w, R w (f w)) -> respects R (modify f).
Proof. intros Hf e w. apply Hf. Qed.

Lemma respects_bind {A B} (m : M A) (k : A -> M B) :
  respects R m -> (forall a, respects R (k a)) -> respects R (bind m k).
Proof.
  intros Hm Hk e w. unfold bind. specialize (Hm e w).
  destruct (m e w) as [[a | x] w1]; cbn in *; [| exact Hm].
  etransitivity; [exact Hm | apply Hk].
Qed.

Lemma respects_try {A} (m : M A) (h : exn -> M A) :
  respects R m -> (forall x, respects R (h x)) -> respects R (try_except m h).
Proof.
  intros Hm Hh e w. unfold try_except. specialize (Hm e w).
  destruct (m e w) as [[a | x] w1]; cbn in *; [exact Hm |].
  etransitivity; [exact Hm | apply Hh].
Qed.

Lemma respects_time_time : respects R time_time.
Proof. intros e w. apply framed. Qed.

Lemma respects_datetime_now : respects R datetime_now.
Proof. intros e w. apply framed. Qed.

Lemma respects_requests_get u hs ps t : respects R (requests_get u hs ps t).
Proof. intros e w. apply framed. Qed.

Lemma respects_for_each {A B} (f : A -> M B) (l : list A) :
  (forall a, respects R (f a)) -> respects R (for_each f l).
Proof.
  intros Hf. induction l as [| x l IH]; cbn.
  - apply respects_ret.
  - apply respects_bind; [apply Hf | intros y].
    apply respects_bind; [exact IH | intros ys]. apply respects_ret.
Qed.

End Respects.

(** Goes through the statements of a computation. *)
Ltac respects_leaf :=
  first [ apply respects_ret | apply respects_raise | apply respects_lift
        | apply respects_asks | apply respects_gets | apply respects_time_time
        | apply respects_datetime_now | apply respects_requests_get ];
  typeclasses eauto.

Ltac respects_step :=
  lazymatch goal with
  | |- respects _ (bind _ _) =>
      apply respects_bind; [typeclasses eauto | try assumption | intros ?]
  | |- respects _ (try_except _ _) =>
      apply respects_try; [typeclasses eauto | try assumption | intros ?]
  | |- respects _ (for_each _ _) =>
      apply respects_for_each; [typeclasses eauto | intros ?]
  | |- respects _ (get_matches_key _) => unfold get_matches_key
  | |- respects _ (get_competitions_key _) => unfold get_competitions_key
  | |- respects _ (response_json _) => unfold response_json
  | |- respects _ (if ?b then _ else _) => destruct b
  | |- respects _ (match ?x with _ => _ end) => destruct x
  | |- respects _ _ => respects_leaf
  end.

#[export] Instance same_store_preorder : PreOrder same_store.
Proof.
  split.
  - intros w. split; reflexivity.
  - intros w1 w2 w3 [H1 H2] [H3 H4]. split; congruence.
Qed.

#[export] Instance same_store_framed : Framed same_store.
Proof. intros w s t. split; reflexivity. Qed.

#[export] Instance same_fallback_entries_preorder : PreOrder same_fallback_entries.
Proof.
  split.
  - intros w. unfold same_fallback_entries. reflexivity.
  - intros w1 w2 w3 H1 H2. unfold same_fallback_entries in *.
    now rewrite H2.
Qed.

#[export] Instance same_fallback_entries_framed : Framed same_fallback_entries.
Proof. intros w s t. unfold same_fallback_entries. reflexivity. Qed.

Lemma same_store_entries (w w' : World) :
  same_store w w' -> same_fallback_entries w w'.
Proof. intros [_ H]. unfold same_fallback_entries. now rewrite H. Qed.

Lemma get_competitions_data_entries : respects same_fallback_entries get_competitions_data.
Proof.
  intros e w. rewrite get_competitions_data_run. cbv zeta.
  unfold same_fallback_entries.
  destruct (cache_fresh _ _); [reflexivity |].
  destruct (network _ _ _) as [resp | x]; [| reflexivity].
  destruct (status_code resp =? 200); [| reflexivity].
  destruct (body resp) as [[d |] | x]; reflexivity.
Qed.

Lemma store_sorted_entries (key : Competition -> string) (r : objref) (w : World) :
  same_fallback_entries w (store r (list_sort key (deref w r)) w).
Proof.
  unfold same_fallback_entries. destruct r; cbn; [| reflexivity].
  apply list_sort_perm.
Qed.

Section Invariants.
Context {rt : PyRuntime}.

Lemma get_live_matches_store : respects same_store get_live_matches.
Proof. unfold get_live_matches. repeat respects_step. Qed.

Lemma get_upcoming_matches_store : respects same_store get_upcoming_matches.
Proof. unfold get_upcoming_matches. repeat respects_step. Qed.

Lemma format_match_time_respects (R : relation World) `{!PreOrder R} `{!Framed R} s :
  respects R (format_match_time s).
Proof. unfold format_match_time. repeat respects_step. Qed.

Lemma format_upcoming_date_respects (R : relation World) `{!PreOrder R} `{!Framed R} s :
  respects R (format_upcoming_date s).
Proof. unfold format_upcoming_date. repeat respects_step. Qed.

Lemma respects_weaken {A} (R R' : relation World) (m : M A) :
  (forall w w', R w w' -> R' w w') -> respects R m -> respects R' m.
Proof. intros HR Hm e w. apply HR, Hm. Qed.

Lemma sort_in_place_entries key v : respects same_fallback_entries (sort_in_place key v).
Proof.
  destruct v as [r | l]; cbn; [| respects_leaf].
  apply respects_bind; [typeclasses eauto | | intros; respects_leaf].
  apply respects_modify. intros w. apply store_sorted_entries.
Qed.

Lemma home_entries args : respects same_fallback_entries (home args).
Proof.
  pose proof get_competitions_data_entries as Hc.
  pose proof (respects_weaken _ _ _ same_store_entries get_live_matches_store) as Hl.
  pose proof (respects_weaken _ _ _ same_store_entries get_upcoming_matches_store) as Hu.
  unfold home, process_match, process_upcoming, read.
  repeat first
    [ apply sort_in_place_entries
    | apply format_match_time_respects; typeclasses eauto
    | apply format_upcoming_date_respects; typeclasses eauto
    | respects_step ].
Qed.

(** In every state the process can reach, the fallback list holds the
    thirteen competitions it was created with, in some order. *)
Lemma reachable_fallback_entries (e : Env) (w : World) :
  reachable e w -> fallback_competitions w ≡ₚ FALLBACK_COMPETITIONS.
Proof.
  unfold reachable. revert w. apply rtc_ind_r; [reflexivity |].
  intros w1 w2 _ Hstep IH. rewrite <- IH.
  destruct Hstep.
  - apply get_competitions_data_entries.
  - apply same_store_entries, get_live_matches_store.
  - apply same_store_entries, get_upcoming_matches_store.
  - apply home_entries.
Qed.

End Invariants.

(** ** Substrings *)

Lemma str_app_cons (c : ascii) (a b : string) : String c a ++ b = String c (a ++ b).
Proof. reflexivity. Qed.

Lemma str_app_nil (b : string) : "" ++ b = b.
Proof. reflexivity. Qed.

Lemma str_startswith_spec (p s : string) :
  str_startswith p s = true <-> exists post, s = p ++ post.
Proof.
  revert s. induction p as [| a p IH]; intros s; cbn.
  - split; [intros _; now exists s | reflexivity].
  - destruct s as [| b s]; cbn.
    + split; [discriminate | intros [post H]; discriminate H].
    + rewrite andb_true_iff, IH. split.
      * intros [Hab [post ->]]. apply Ascii.eqb_eq in Hab. subst b. now exists post.
      * intros [post H]. rewrite str_app_cons in H. injection H as -> ->.
        split; [apply Ascii.eqb_refl | now exists post].
Qed.

Lemma str_contains_spec (needle hay : string) :
  str_contains needle hay = true <-> exists pre post, hay = pre ++ needle ++ post.
Proof.
  induction hay as [| c hay IH].
  - cbn. rewrite orb_false_r, str_startswith_spec. split.
    + intros [post H]. now exists "", post.
    + intros [[| a pre] [post H]]; [now exists post | discriminate H].
  - cbn [str_contains]. rewrite orb_true_iff, str_startswith_spec, IH. split.
    + intros [[post H] | (pre & post & H)].
      * now exists "", post.
      * exists (String c pre), post. rewrite str_app_cons. now rewrite H.
    + intros ([| a pre] & post & H).
      * left. now exists post.
      * right. rewrite str_app_cons in H. injection H as -> ->. now exists pre, post.
Qed.

(** ** Replacing a character *)

Lemma str_all_app (f : ascii -> bool) (a b : string) :
  str_all f (a ++ b) = str_all f a && str_all f b.
Proof.
  induction a as [| c a IH]; [reflexivity |].
  rewrite str_app_cons. cbn. now rewrite IH, andb_assoc.
Qed.

Lemma str_replace_char_absent (c : ascii) (new s t : string) :
  str_all (fun x => negb (Ascii.eqb c x)) s = true ->
  str_replace (String c "") new (s ++ String c t) =
  s ++ new ++ str_replace (String c "") new t.
Proof.
  unfold str_replace. induction s as [| x s IH].
  - intros _. rewrite !str_app_nil. cbn. now rewrite Ascii.eqb_refl.
  - cbn [str_all]. rewrite andb_true_iff, negb_true_iff. intros [Hx Hs].
    rewrite !str_app_cons. cbn. rewrite Hx. cbn. now rewrite IH.
Qed.

(** ** Filters *)

Section Filters.
Context {rt : PyRuntime}.

Lemma search_keeps_spec (search : string) (c : Competition) :
  search_keeps (str_lower search) c = true <-> search_hit search c.
Proof.
  unfold search_keeps, search_hit, contains_ignoring_case.
  now rewrite orb_true_iff, !str_contains_spec.
Qed.

Lemma country_keeps_spec (country : string) (c : Competition) :
  country_keeps country c = true <-> country_hit country c.
Proof. unfold country_keeps, country_hit. apply String.eqb_eq. Qed.

#[export] Instance search_hit_dec (search : string) (c : Competition) :
  Decision (search_hit search c).
Proof.
  refine (cast_if (decide (search_keeps (str_lower search) c = true)));
    abstract (now rewrite <- search_keeps_spec).
Defined.

#[export] Instance country_hit_dec (country : string) (c : Competition) :
  Decision (country_hit country c).
Proof. unfold country_hit. apply _. Defined.

(** A boolean test and a decidable property that agree select the same
    elements. *)
Lemma filter_agree {A} (f : A -> bool) (P : A -> Prop) `{!forall x, Decision (P x)}
  (l : list A) :
  (forall x, f x = true <-> P x) -> List.filter f l = filter P l.
Proof.
  intros Hf. induction l as [| x l IH]; [reflexivity |].
  cbn [List.filter]. rewrite filter_cons, IH.
  destruct (decide (P x)) as [Hp | Hn].
  - apply Hf in Hp. now rewrite Hp.
  - destruct (f x) eqn:E; [| reflexivity]. apply Hf in E. contradiction.
Qed.

Lemma filter_everything {A} (P : A -> Prop) `{!forall x, Decision (P x)} (l : list A) :
  (forall x, P x) -> filter P l = l.
Proof.
  intros HP. induction l as [| x l IH]; [reflexivity |].
  rewrite filter_cons, IH.
  destruct (decide (P x)) as [_ | Hn]; [reflexivity | destruct (Hn (HP x))].
Qed.

Lemma filter_nothing {A} (P : A -> Prop) `{!forall x, Decision (P x)} (l : list A) :
  (forall x, x ∈ l -> ~ P x) -> filter P l = [].
Proof.
  induction l as [| x l IH]; intros Hn; [reflexivity |].
  rewrite filter_cons. destruct (decide (P x)) as [Hp | _].
  - destruct (Hn x); [left | exact Hp].
  - apply IH. intros y Hy. apply Hn. now right.
Qed.

Lemma filter_by_search_filter (search : string) (l : list Competition) :
  filter_by_search search l = filter (search_hit search) l.
Proof.
  unfold filter_by_search. cbn zeta. unfold truthy_str.
  destruct (String.eqb_spec (str_lower search) "") as [Hempty | _]; cbn.
  - symmetry. apply filter_everything. intros c. left.
    unfold contains_ignoring_case. rewrite Hempty.
    now exists "", (str_lower (name_of c)).
  - apply filter_agree. intros c. apply search_keeps_spec.
Qed.

(** C7: the search filter keeps exactly the competitions whose name or code
    contains the term, letter case ignored, so that a term found in no name
    and no code leaves nothing; the country filter, for a country that is
    given, keeps exactly the competitions whose area name is that country,
    letter case ignored. The empty string is how the request says that no
    country is given, and then the list is passed on as it is. *)
Theorem competition_filters (l : list Competition) (search country : string) :
  filter_by_search search l = filter (search_hit search) l /\
  ((forall c, c ∈ l -> ~ search_hit search c) -> filter_by_search search l = []) /\
  (country <> "" ->
     filter_by_country country l = filter (country_hit country) l) /\
  filter_by_country "" l = l.
Proof.
  split; [apply filter_by_search_filter |]. split; [| split; [| reflexivity]].
  - intros Hn. rewrite filter_by_search_filter. now apply filter_nothing.
  - intros Hc. unfold filter_by_country, truthy_str.
    destruct (String.eqb_spec country "") as [Hempty | _]; [contradiction |]. cbn.
    apply filter_agree. intros c. apply country_keeps_spec.
Qed.

End Filters.

Section Fetching.
Context {rt : PyRuntime}.

(** C4: live matches. Without a credential the fallback matches come back
    flagged and nothing is sent; with a credential, an answer with status
    200 gives the first ten matches at most, unflagged, and any failure
    gives the fallback matches, flagged. *)
Theorem live_matches_policy (e : Env) (w : World) :
  let now := clock_now e (ticks w) in
  let rq := matches_request e now now in
  let answer := network e (length (sent w)) rq in
  (~ credential e ->
     get_live_matches e w = (Ok (FALLBACK_MATCHES e, true), w)) /\
  (credential e -> forall d, remote_success answer d ->
     let ms := default [] (doc_matches d) in
     get_live_matches e w = (Ok (take 10 ms, false), logged rq (tick w)) /\
     (length (take 10 ms) <= 10)%nat /\ take 10 ms `prefix_of` ms) /\
  (credential e -> remote_failure answer ->
     get_live_matches e w = (Ok (FALLBACK_MATCHES e, true), logged rq (tick w))).
Proof.
  intros now rq answer. rewrite get_live_matches_run. cbv zeta.
  fold now. fold rq. fold answer. unfold credential. split; [| split].
  - intros Hno. destruct (truthy_str (API_KEY e)); [congruence | reflexivity].
  - intros Hk d (resp & Ha & Hs & Hb). rewrite Hk, Ha, Hs, Hb. cbn.
    split; [reflexivity |].
    split; [rewrite length_take; lia | apply prefix_take].
  - intros Hk Hf. rewrite Hk. unfold remote_failure in Hf.
    destruct answer as [resp | x]; [| reflexivity].
    destruct (Z.eqb_spec (status_code resp) 200) as [Hs | Hs]; [| reflexivity].
    destruct Hf as [Hf | [[x Hf] | Hf]]; [congruence | |]; rewrite Hf; reflexivity.
Qed.

(** Every answer either delivers a document or is a failure. *)
Lemma remote_outcome (r : result Response) :
  (exists d, remote_success r d) \/ remote_failure r.
Proof.
  destruct r as [[st [[d |] | x]] | x].
  - destruct (Z.eq_dec st 200) as [-> | Hne].
    + left. exists d. eexists. eauto.
    + right. left. exact Hne.
  - right. right. right. reflexivity.
  - right. right. left. eauto.
  - right. exact I.
Qed.

(** C1: when the remote call of [get_competitions_data] raises or answers
    with a status other than 200 (or with a body that cannot be used), the
    operation returns the fallback competition list, flagged, raises nothing
    and leaves the cache as it was; that list has its thirteen entries. *)
Theorem competitions_failure_falls_back
  (e : Env) (w w' : World) (r : result (objref * bool)) (rq : Request) :
  reachable e w ->
  get_competitions_data e w = (r, w') ->
  sent w' = (sent w ++ [rq])%list ->
  remote_failure (network e (length (sent w)) rq) ->
  r = Ok (RefFallbackCompetitions, true) /\
  api_cache w' = api_cache w /\
  deref w' RefFallbackCompetitions ≡ₚ FALLBACK_COMPETITIONS /\
  length (deref w' RefFallbackCompetitions) = 13%nat.
Proof.
  intros Hr Hrun Hsent Hfail.
  pose proof (reachable_fallback_entries e w Hr) as Hinv.
  rewrite get_competitions_data_run in Hrun. cbv zeta in Hrun.
  destruct (cache_fresh _ _).
  { injection Hrun as <- <-. cbn in Hsent.
    apply (f_equal length) in Hsent. rewrite length_app in Hsent. cbn in Hsent. lia. }
  assert (Hrq : rq = competitions_request e).
  { destruct (network _ _ (competitions_request e)) as [resp | x];
      [destruct (status_code resp =? 200); [destruct (body resp) as [[d |] | x] |] |];
      injection Hrun as <- <-; cbn in Hsent;
      apply app_inj_tail in Hsent; destruct Hsent as [_ Hsent]; congruence. }
  subst rq.
  assert (Hout : r = Ok (RefFallbackCompetitions, true) /\
                 w' = logged (competitions_request e) (tick w)).
  { destruct (network _ _ _) as [resp | x]; [| now injection Hrun as <- <-].
    cbn in Hfail.
    destruct (Z.eqb_spec (status_code resp) 200) as [Hs | Hs];
      [| now injection Hrun as <- <-].
    destruct Hfail as [Hf | [[x Hf] | Hf]]; [congruence | |];
      rewrite Hf in Hrun; now injection Hrun as <- <-. }
  destruct Hout as [-> ->]. cbn.
  split; [reflexivity |]. split; [reflexivity |].
  split; [exact Hinv |]. now rewrite Hinv.
Qed.

(** C2, as amended: after a successful fetch that delivered a list that is
    not empty, a call less than 300 seconds later returns the cached object,
    unflagged, and sends nothing; a call 300 seconds or more after the fetch
    sends a new request. The cached list may have been reordered in place
    in between. *)
Theorem cache_window (e : Env) (w0 w2 : World) (d : Document)
  (l2 : list Competition) :
  let t1 := clock_time e (ticks w0) in
  let l := default [] (doc_competitions d) in
  let w1 := (get_competitions_data e w0).2 in
  let t2 := clock_time e (ticks w2) in
  let second := get_competitions_data e w2 in
  cache_fresh t1 (api_cache w0) = false ->
  remote_success (network e (length (sent w0)) (competitions_request e)) d ->
  data (api_cache w2) = Some l2 -> l2 ≡ₚ l ->
  timestamp (api_cache w2) = timestamp (api_cache w1) ->
  api_cache w1 = {| data := Some l; timestamp := t1 |} /\
  (l <> [] -> (t2 - t1 < 300)%Q ->
     second = (Ok (RefCacheData, false), tick w2) /\
     deref second.2 RefCacheData = l2 /\
     sent second.2 = sent w2) /\
  ((300 <= t2 - t1)%Q ->
     sent second.2 = (sent w2 ++ [competitions_request e])%list).
Proof.
  intros t1 l w1 t2 second Hstale (resp & Ha & Hs & Hb) Hd Hperm Ht.
  assert (Hw1 : api_cache w1 = {| data := Some l; timestamp := t1 |}).
  { subst w1. rewrite get_competitions_data_run. cbv zeta. fold t1.
    rewrite Hstale, Ha, Hs, Hb. reflexivity. }
  rewrite Hw1 in Ht. cbn in Ht.
  subst second. rewrite get_competitions_data_run. cbv zeta. fold t2.
  unfold cache_fresh. rewrite Hd, Ht. unfold Qltb, CACHE_DURATION.
  split; [exact Hw1 |]. split.
  - intros Hne Hlt.
    assert (Hl2 : truthy_list (Some l2) = true).
    { destruct l2; [| reflexivity].
      apply Permutation_nil_l in Hperm. congruence. }
    assert (Hq : Qle_bool 300 (t2 - t1) = false).
    { destruct (Qle_bool 300 (t2 - t1)) eqn:E; [| reflexivity].
      apply Qle_bool_iff in E. exfalso. eapply Qlt_not_le; eassumption. }
    rewrite Hl2, Hq. cbn. rewrite Hd. auto.
  - intros Hge.
    assert (Hq : Qle_bool 300 (t2 - t1) = true) by now apply Qle_bool_iff.
    rewrite Hq, andb_false_r.
    destruct (network e (length (sent w2)) _) as [resp' | x]; [| reflexivity].
    destruct (status_code resp' =? 200); [| reflexivity].
    destruct (body resp') as [[d' |] | x]; reflexivity.
Qed.


(** C3: upcoming matches. With a credential and an answer with status 200
    whose match list is not empty, the first five matches come back,
    unflagged. With an empty match list, a failed call or no credential,
    the three sample fixtures come back, flagged; their dates are one, two
    and three days after the clock readings taken when the call starts. *)
Theorem upcoming_matches_policy (e : Env) (w : World) :
  let k := ticks w in
  let upcoming :=
    upcoming_fixtures (clock_now e k) (clock_now e (S k)) (clock_now e (S (S k))) in
  let rq := matches_request e (dt_add (clock_now e (3 + k)%nat) (days 1))
                              (dt_add (clock_now e (4 + k)%nat) (days 7)) in
  let answer := network e (length (sent w)) rq in
  let run := get_upcoming_matches e w in
  (credential e -> forall d, remote_success answer d ->
     default [] (doc_matches d) <> [] ->
     run.1 = Ok (take 5 (default [] (doc_matches d)), false)) /\
  (credential e -> forall d, remote_success answer d ->
     default [] (doc_matches d) = [] ->
     run.1 = Ok (upcoming, true)) /\
  (credential e -> remote_failure answer -> run.1 = Ok (upcoming, true)) /\
  (~ credential e -> run.1 = Ok (upcoming, true) /\ sent run.2 = sent w) /\
  length upcoming = 3%nat /\
  utcDate <$> upcoming =
    [ Some (isoformat (dt_add (clock_now e k) (days 1)));
      Some (isoformat (dt_add (clock_now e (S k)) (days 2)));
      Some (isoformat (dt_add (clock_now e (S (S k))) (days 3))) ].
Proof.
  intros k upcoming rq answer run. subst run.
  rewrite get_upcoming_matches_run. cbv zeta.
  fold k. fold upcoming. fold rq. fold answer. unfold credential.
  split; [| split; [| split; [| split; [| split; reflexivity]]]].
  - intros Hk d (resp & Ha & Hs & Hb) Hne. rewrite Hk, Ha, Hs, Hb. cbn.
    destruct (default [] (doc_matches d)); [congruence | reflexivity].
  - intros Hk d (resp & Ha & Hs & Hb) Hnil. rewrite Hk, Ha, Hs, Hb. cbn.
    rewrite Hnil. reflexivity.
  - intros Hk Hf. rewrite Hk. unfold remote_failure in Hf.
    destruct answer as [resp | x]; [| reflexivity].
    destruct (Z.eqb_spec (status_code resp) 200) as [Hs | Hs]; [| reflexivity].
    destruct Hf as [Hf | [[x Hf] | Hf]]; [congruence | |]; rewrite Hf; reflexivity.
  - intros Hno. destruct (truthy_str (API_KEY e)); [congruence |]. split; reflexivity.
Qed.

(** C10: an answer with status 200 and no matches makes [get_live_matches]
    return the empty list, unflagged; the static matches are not put in its
    place. [get_upcoming_matches], given such an answer, returns its sample
    fixtures, flagged. *)
Theorem live_matches_empty_is_authoritative (e : Env) (w : World) (d : Document) :
  let now := clock_now e (ticks w) in
  let k := ticks w in
  let live_answer := network e (length (sent w)) (matches_request e now now) in
  let upcoming_answer :=
    network e (length (sent w))
      (matches_request e (dt_add (clock_now e (3 + k)%nat) (days 1))
                         (dt_add (clock_now e (4 + k)%nat) (days 7))) in
  credential e ->
  default [] (doc_matches d) = [] ->
  (remote_success live_answer d -> (get_live_matches e w).1 = Ok ([], false)) /\
  (remote_success upcoming_answer d ->
     exists fixtures, (get_upcoming_matches e w).1 = Ok (fixtures, true) /\
                      length fixtures = 3%nat).
Proof.
  intros now k live_answer upcoming_answer Hk Hnil.
  unfold credential in Hk. split.
  - intros (resp & Ha & Hs & Hb). rewrite get_live_matches_run. cbv zeta.
    fold now. fold live_answer. rewrite Hk, Ha, Hs, Hb. cbn. now rewrite Hnil.
  - intros (resp & Ha & Hs & Hb). rewrite get_upcoming_matches_run. cbv zeta.
    fold k. fold upcoming_answer. rewrite Hk, Ha, Hs, Hb. cbn. rewrite Hnil. cbn.
    eexists. split; reflexivity.
Qed.

(** C5: the two keys of the cache change together or not at all. A call of
    [get_competitions_data] either leaves the cache as it was, or it made a
    remote call that delivered a document with status 200 and then the cache
    holds the delivered list together with the time of this call. The two
    other operations leave the cache as it was. None of the three changes
    the fallback list. *)
Theorem cache_written_only_on_success (e : Env) (w : World) :
  let now := clock_time e (ticks w) in
  let answer := network e (length (sent w)) (competitions_request e) in
  let w' := (get_competitions_data e w).2 in
  ((api_cache w' = api_cache w /\
    (cache_fresh now (api_cache w) = true \/ remote_failure answer)) \/
   (exists d, cache_fresh now (api_cache w) = false /\
              remote_success answer d /\
              api_cache w' =
                {| data := Some (default [] (doc_competitions d));
                   timestamp := now |})) /\
  fallback_competitions w' = fallback_competitions w /\
  same_store w (get_live_matches e w).2 /\
  same_store w (get_upcoming_matches e w).2.
Proof.
  intros now answer w'. subst w'. rewrite get_competitions_data_run. cbv zeta.
  fold now. fold answer.
  split; [| split; [| split]].
  - destruct (cache_fresh now (api_cache w)); [left; auto |].
    destruct (remote_outcome answer) as [[d Hok] | Hf].
    + right. exists d. destruct Hok as (resp & Ha & Hs & Hb).
      rewrite Ha, Hs, Hb. cbn.
      split; [reflexivity |]. split; [| reflexivity].
      exists resp. auto.
    + left. split; [| now right]. unfold remote_failure in Hf.
      destruct answer as [resp | x]; [| reflexivity].
      destruct (Z.eqb_spec (status_code resp) 200) as [Hs | Hs]; [| reflexivity].
      destruct Hf as [Hf | [[x Hf] | Hf]]; [congruence | |]; rewrite Hf; reflexivity.
  - destruct (cache_fresh now (api_cache w)); [reflexivity |].
    destruct answer as [resp | x]; [| reflexivity].
    destruct (status_code resp =? 200); [| reflexivity].
    destruct (body resp) as [[d |] | x]; reflexivity.
  - apply get_live_matches_store.
  - apply get_upcoming_matches_store.
Qed.

End Fetching.

(** ** The fetch operations on the sample surroundings *)

Lemma competitions_failure_falls_back_witness :
  let e := sample_env None net_down in
  let run := get_competitions_data e initial_world in
  (reachable e initial_world /\
   sent run.2 = (sent initial_world ++ [competitions_request e])%list /\
   remote_failure (network e (length (sent initial_world)) (competitions_request e))) /\
  run.1 = Ok (RefFallbackCompetitions, true) /\
  api_cache run.2 = api_cache initial_world /\
  deref run.2 RefFallbackCompetitions ≡ₚ FALLBACK_COMPETITIONS /\
  length (deref run.2 RefFallbackCompetitions) = 13%nat.
Proof.
  intros e run.
  assert (H1 : reachable e initial_world) by apply rtc_refl.
  assert (H2 : sent run.2 = (sent initial_world ++ [competitions_request e])%list)
    by reflexivity.
  assert (H3 : remote_failure
                 (network e (length (sent initial_world)) (competitions_request e)))
    by exact I.
  split; [auto |].
  exact (competitions_failure_falls_back e initial_world run.2 run.1
           (competitions_request e) H1 eq_refl H2 H3).
Defined.

(** C2 as stated fails when the successful fetch delivered an empty list:
    the empty list is stored, counts as no data, and the next call, one
    second later, goes to the network again. *)
Lemma cache_window_counterexample :
  let e := sample_env None (net_ok no_competitions) in
  let first := get_competitions_data e initial_world in
  let second := get_competitions_data e first.2 in
  remote_success (network e 0 (competitions_request e)) no_competitions /\
  first.1 = Ok (RefCacheData, false) /\
  api_cache first.2 = {| data := Some []; timestamp := clock_time e 0 |} /\
  (clock_time e (ticks first.2) - clock_time e 0 < 300)%Q /\
  sent second.2 = (sent first.2 ++ [competitions_request e])%list /\
  sent second.2 <> sent first.2.
Proof.
  intros e first second.
  split. { eexists. repeat split; reflexivity. }
  split; [reflexivity |]. split; [reflexivity |]. split; [reflexivity |].
  split; [reflexivity |].
  intros H. apply (f_equal length) in H. discriminate H.
Qed.

Lemma cache_window_witness :
  let e := sample_env None (net_ok two_competitions) in
  let l := default [] (doc_competitions two_competitions) in
  let w1 := (get_competitions_data e initial_world).2 in
  let late := {| api_cache := api_cache w1;
                 fallback_competitions := fallback_competitions w1;
                 sent := sent w1; ticks := 400 |} in
  (get_competitions_data e w1 = (Ok (RefCacheData, false), tick w1) /\
   deref (get_competitions_data e w1).2 RefCacheData = l /\
   sent (get_competitions_data e w1).2 = sent w1) /\
  sent (get_competitions_data e late).2 = (sent late ++ [competitions_request e])%list.
Proof.
  intros e l w1 late.
  assert (Hok : remote_success
                  (network e (length (sent initial_world)) (competitions_request e))
                  two_competitions).
  { eexists. repeat split; reflexivity. }
  split.
  - refine (proj1 (proj2 (cache_window e initial_world w1 two_competitions l
              eq_refl Hok eq_refl _ eq_refl)) _ _).
    + reflexivity.
    + discriminate.
    + reflexivity.
  - refine (proj2 (proj2 (cache_window e initial_world late two_competitions l
              eq_refl Hok eq_refl _ eq_refl)) _).
    + reflexivity.
    + discriminate.
Defined.

Lemma upcoming_matches_policy_witness :
  let sample := upcoming_fixtures noon noon noon in
  let key := Some "token" in
  (get_upcoming_matches (sample_env key (net_ok twelve_matches)) initial_world).1 =
    Ok (take 5 (default [] (doc_matches twelve_matches)), false) /\
  (get_upcoming_matches (sample_env key (net_ok no_matches)) initial_world).1 =
    Ok (sample, true) /\
  (get_upcoming_matches (sample_env key net_down) initial_world).1 =
    Ok (sample, true) /\
  (get_upcoming_matches (sample_env None net_down) initial_world).1 =
    Ok (sample, true).
Proof.
  intros sample key.
  assert (Hk : forall net, credential (sample_env key net)) by reflexivity.
  assert (Hno : ~ credential (sample_env None net_down)) by discriminate.
  assert (Hs : forall d k rq, remote_success (network (sample_env key (net_ok d)) k rq) d).
  { intros d k rq. eexists. repeat split; reflexivity. }
  split; [| split; [| split]].
  - refine (proj1 (upcoming_matches_policy
              (sample_env key (net_ok twelve_matches)) initial_world)
              (Hk _) twelve_matches (Hs _ _ _) _).
    discriminate.
  - exact (proj1 (proj2 (upcoming_matches_policy
              (sample_env key (net_ok no_matches)) initial_world))
              (Hk _) no_matches (Hs _ _ _) eq_refl).
  - exact (proj1 (proj2 (proj2 (upcoming_matches_policy
              (sample_env key net_down) initial_world))) (Hk _) I).
  - exact (proj1 (proj1 (proj2 (proj2 (proj2 (upcoming_matches_policy
              (sample_env None net_down) initial_world)))) Hno)).
Defined.

Lemma live_matches_policy_witness :
  let key := Some "token" in
  get_live_matches (sample_env None net_down) initial_world =
    (Ok (FALLBACK_MATCHES (sample_env None net_down), true), initial_world) /\
  (get_live_matches (sample_env key (net_ok twelve_matches)) initial_world).1 =
    Ok (take 10 (default [] (doc_matches twelve_matches)), false) /\
  (get_live_matches (sample_env key (net_status 429)) initial_world).1 =
    Ok (FALLBACK_MATCHES (sample_env key (net_status 429)), true).
Proof.
  intros key.
  assert (Hno : ~ credential (sample_env None net_down)) by discriminate.
  assert (Hs : forall k rq,
             remote_success (network (sample_env key (net_ok twelve_matches)) k rq)
                            twelve_matches).
  { intros k rq. eexists. repeat split; reflexivity. }
  assert (Hf : forall k rq,
             remote_failure (network (sample_env key (net_status 429)) k rq)).
  { intros k rq. left. discriminate. }
  split; [| split].
  - exact (proj1 (live_matches_policy (sample_env None net_down) initial_world) Hno).
  - exact (f_equal fst (proj1 (proj1 (proj2 (live_matches_policy
             (sample_env key (net_ok twelve_matches)) initial_world))
             eq_refl twelve_matches (Hs _ _)))).
  - exact (f_equal fst (proj2 (proj2 (live_matches_policy
             (sample_env key (net_status 429)) initial_world)) eq_refl (Hf _ _))).
Defined.

Lemma live_matches_empty_is_authoritative_witness :
  let e := sample_env (Some "token") (net_ok no_matches) in
  (credential e /\ default [] (doc_matches no_matches) = []) /\
  (get_live_matches e initial_world).1 = Ok ([], false) /\
  (exists fixtures, (get_upcoming_matches e initial_world).1 = Ok (fixtures, true) /\
                    length fixtures = 3%nat).
Proof.
  intros e.
  assert (Hs : forall k rq, remote_success (network e k rq) no_matches).
  { intros k rq. eexists. repeat split; reflexivity. }
  split; [split; reflexivity |].
  destruct (live_matches_empty_is_authoritative e initial_world no_matches
              eq_refl eq_refl) as [H1 H2].
  split; [exact (H1 (Hs _ _)) | exact (H2 (Hs _ _))].
Defined.

Lemma competition_filters_witness :
  let l := FALLBACK_COMPETITIONS in
  ((forall c, c ∈ l -> ~ search_hit "Bundesliga 2" c) /\ "ENGLAND" <> "") /\
  filter_by_search "Bundesliga 2" l = [] /\
  filter_by_country "ENGLAND" l = filter (country_hit "ENGLAND") l /\
  filter_by_country "ENGLAND" l =
    [ mk_competition "Premier League" "PL" "England" "TIER_ONE";
      mk_competition "Championship" "ELC" "England" "TIER_TWO" ] /\
  filter_by_search "PREM" l =
    [ mk_competition "Premier League" "PL" "England" "TIER_ONE" ] /\
  filter_by_search "bl1" l =
    [ mk_competition "Bundesliga" "BL1" "Germany" "TIER_ONE" ].
Proof.
  intros l.
  assert (Hnone : forall c, c ∈ l -> ~ search_hit "Bundesliga 2" c).
  { apply Forall_forall.
    assert (Hdec : Forall (fun c => search_keeps (str_lower "Bundesliga 2") c = false) l)
      by (repeat constructor).
    eapply Forall_impl; [exact Hdec |].
    intros c Hc Hhit. apply search_keeps_spec in Hhit. congruence. }
  assert (Hgiven : "ENGLAND" <> "") by discriminate.
  destruct (competition_filters l "Bundesliga 2" "ENGLAND")
    as (_ & Hsearch & Hcountry & _).
  split; [split; assumption |].
  split; [exact (Hsearch Hnone) |].
  split; [exact (Hcountry Hgiven) |].
  repeat split; reflexivity.
Defined.

(** C8: after sorting by name the names never decrease from left to right,
    and a list whose names are already in that order is left as it is, so
    sorting twice is sorting once. *)
Theorem sort_by_name_orders (l : list Competition) :
  StronglySorted str_le (name_of <$> sort_by_name l) /\
  sort_by_name l ≡ₚ l /\
  (StronglySorted str_le (name_of <$> l) -> sort_by_name l = l) /\
  sort_by_name (sort_by_name l) = sort_by_name l.
Proof.
  assert (Hmap : forall l' : list Competition,
             nondecreasing name_of l' <-> StronglySorted str_le (name_of <$> l')).
  { intros l'. unfold nondecreasing. induction l' as [| x l' IH]; cbn.
    - split; constructor.
    - split; intros H; inversion H as [| ? ? Hs Hx]; subst.
      + constructor; [now apply IH |]. rewrite Forall_fmap. exact Hx.
      + constructor; [now apply IH |]. rewrite Forall_fmap in Hx. exact Hx. }
  unfold sort_by_name. split; [| split; [| split]].
  - apply Hmap, list_sort_sorted.
  - apply list_sort_perm.
  - intros Hs. apply list_sort_fixed. now apply Hmap.
  - apply list_sort_fixed, list_sort_sorted.
Qed.

Lemma sort_by_name_orders_witness :
  let l := [ mk_competition "Bundesliga" "BL1" "Germany" "TIER_ONE";
             mk_competition "La Liga" "PD" "Spain" "TIER_ONE";
             mk_competition "Serie A" "SA" "Italy" "TIER_ONE" ] in
  StronglySorted str_le (name_of <$> l) /\ sort_by_name l = l.
Proof.
  intros l.
  assert (Hs : StronglySorted str_le (name_of <$> l)).
  { repeat (constructor; [| repeat constructor]). constructor. }
  split; [exact Hs |].
  exact (proj1 (proj2 (proj2 (sort_by_name_orders l))) Hs).
Defined.

(** ** Timestamps *)

Lemma digit_not_Z (k : Z) : 0 <= k <= 9 -> negb (Ascii.eqb "Z" (digit k)) = true.
Proof.
  intros Hk.
  assert (Hcases : k = 0 \/ k = 1 \/ k = 2 \/ k = 3 \/ k = 4 \/
                   k = 5 \/ k = 6 \/ k = 7 \/ k = 8 \/ k = 9) by lia.
  repeat (destruct Hcases as [-> | Hcases]; [reflexivity |]).
  subst k. reflexivity.
Qed.

Lemma fmt2_no_Z (n : Z) :
  0 <= n < 100 -> str_all (fun x => negb (Ascii.eqb "Z" x)) (fmt2 n) = true.
Proof.
  intros Hn. unfold fmt2. cbn [str_all].
  rewrite !digit_not_Z by (Z.div_mod_to_equations; lia). reflexivity.
Qed.

Lemma fmt4_no_Z (n : Z) :
  0 <= n < 10000 -> str_all (fun x => negb (Ascii.eqb "Z" x)) (fmt4 n) = true.
Proof.
  intros Hn. unfold fmt4. cbn [str_all].
  rewrite !digit_not_Z by (Z.div_mod_to_equations; lia). reflexivity.
Qed.

Lemma valid_fields_day (y mo d h mi s : Z) : valid_fields y mo d h mi s -> d <= 31.
Proof.
  intros (_ & _ & Hd & _). unfold days_in_month in Hd.
  repeat match type of Hd with context [if ?b then _ else _] => destruct b end; lia.
Qed.

Lemma replace_Z_suffix (y mo d h mi s : Z) :
  valid_fields y mo d h mi s ->
  str_replace "Z" "+00:00" (iso_seconds y mo d h mi s ++ "Z") =
  iso_seconds y mo d h mi s ++ "+00:00".
Proof.
  intros Hv. pose proof (valid_fields_day _ _ _ _ _ _ Hv) as Hd'.
  destruct Hv as (Hy & Hmo & Hd & Hh & Hmi & Hs).
  rewrite str_replace_char_absent; [reflexivity |].
  unfold iso_seconds. rewrite !str_all_app.
  rewrite fmt4_no_Z by lia. rewrite !fmt2_no_Z by lia. reflexivity.
Qed.

Lemma str_app_nil_r (s : string) : s ++ "" = s.
Proof.
  induction s as [| c s IH]; [reflexivity |].
  rewrite str_app_cons. now rewrite IH.
Qed.

Lemma strftime_hour_minute (dt : datetime) :
  strftime "%H:%M" dt = fmt2 (hour dt) ++ ":" ++ fmt2 (minute dt).
Proof. reflexivity. Qed.

Lemma strftime_long_date (dt : datetime) :
  strftime "%B %d, %Y" dt =
  month_name (month dt) ++ " " ++ fmt2 (day dt) ++ ", " ++ decimal (year dt).
Proof.
  cbn [strftime strftime_directive Ascii.eqb Bool.eqb].
  rewrite !str_app_cons, !str_app_nil.
  unfold fmt2. rewrite !str_app_cons, !str_app_nil.
  now rewrite str_app_nil_r.
Qed.

Section Formatting.
Context {rt : PyRuntime}.

Lemma format_match_time_run (s : string) (e : Env) (w : World) :
  format_match_time s e w =
    (Ok match fromisoformat (str_replace "Z" "+00:00" s) with
        | Ok utc_time => strftime "%H:%M" utc_time
        | Raise _ => "TBD"
        end, w).
Proof.
  unfold format_match_time, try_except, bind, lift, ret.
  destruct (fromisoformat _); reflexivity.
Qed.

Lemma format_upcoming_date_run (s : string) (e : Env) (w : World) :
  format_upcoming_date s e w =
    (Ok match fromisoformat (str_replace "Z" "+00:00" s) with
        | Ok utc_time => strftime "%B %d, %Y" utc_time
        | Raise _ => "Date TBD"
        end, w).
Proof.
  unfold format_upcoming_date, try_except, bind, lift, ret.
  destruct (fromisoformat _); reflexivity.
Qed.

(** C9: the two formatting operations raise nothing, whatever the string. A
    timestamp [YYYY-MM-DDTHH:MM:SSZ] with fields in range gives the hour and
    minute as [HH:MM] and the date as month name, day and year; a string the
    parser rejects gives ["TBD"] and ["Date TBD"]. *)
Theorem timestamp_formatting (s : string) (e : Env) (w : World) :
  (exists t d, format_match_time s e w = (Ok t, w) /\
               format_upcoming_date s e w = (Ok d, w)) /\
  (forall y mo d h mi sec,
     valid_fields y mo d h mi sec ->
     s = iso_seconds y mo d h mi sec ++ "Z" ->
     format_match_time s e w = (Ok (fmt2 h ++ ":" ++ fmt2 mi), w) /\
     format_upcoming_date s e w =
       (Ok (month_name mo ++ " " ++ fmt2 d ++ ", " ++ decimal y), w)) /\
  ((exists x, fromisoformat (str_replace "Z" "+00:00" s) = Raise x) ->
     format_match_time s e w = (Ok "TBD", w) /\
     format_upcoming_date s e w = (Ok "Date TBD", w)).
Proof.
  rewrite format_match_time_run, format_upcoming_date_run.
  split; [eauto |]. split.
  - intros y mo d h mi sec Hv ->.
    rewrite replace_Z_suffix by exact Hv.
    rewrite (fromisoformat_utc _ _ _ _ _ _ Hv).
    now rewrite strftime_hour_minute, strftime_long_date.
  - intros [x ->]. split; reflexivity.
Qed.

End Formatting.

Lemma timestamp_formatting_witness :
  let e := sample_env None net_down in
  let w := initial_world in
  (valid_fields 2025 1 23 15 4 0 /\
   "2025-01-23T15:04:00Z" = iso_seconds 2025 1 23 15 4 0 ++ "Z" /\
   exists x, fromisoformat (str_replace "Z" "+00:00" "kick-off at noon") = Raise x) /\
  format_match_time "2025-01-23T15:04:00Z" e w = (Ok "15:04", w) /\
  format_upcoming_date "2025-01-23T15:04:00Z" e w = (Ok "January 23, 2025", w) /\
  format_match_time "kick-off at noon" e w = (Ok "TBD", w) /\
  format_upcoming_date "kick-off at noon" e w = (Ok "Date TBD", w).
Proof.
  intros e w.
  assert (Hv : valid_fields 2025 1 23 15 4 0) by (unfold valid_fields; cbn; lia).
  assert (Hs : "2025-01-23T15:04:00Z" = iso_seconds 2025 1 23 15 4 0 ++ "Z")
    by reflexivity.
  assert (Hbad : exists x,
             fromisoformat (str_replace "Z" "+00:00" "kick-off at noon") = Raise x)
    by (eexists; reflexivity).
  split; [auto |].
  destruct (proj1 (proj2 (timestamp_formatting "2025-01-23T15:04:00Z" e w))
              2025 1 23 15 4 0 Hv Hs) as [Ht Hd].
  destruct (proj2 (proj2 (timestamp_formatting "kick-off at noon" e w)) Hbad)
    as [Ht' Hd'].
  split; [exact Ht |]. split; [exact Hd |]. split; [exact Ht' | exact Hd'].
Defined.

(** ** The handler and the flags of the match operations *)

Section Handler.
Context {rt : PyRuntime}.

Lemma bind_ok {A B} (m : M A) (k : A -> M B) (e : Env) (w w' : World) (a : A) :
  m e w = (Ok a, w') -> bind m k e w = k a e w'.
Proof. intros H. unfold bind. now rewrite H. Qed.

Lemma get_competitions_data_ok (e : Env) (w : World) :
  exists r fb, (get_competitions_data e w).1 = Ok (r, fb).
Proof.
  rewrite get_competitions_data_run. cbv zeta.
  destruct (cache_fresh _ _); [eauto |].
  destruct (network _ _ _) as [resp | x]; [| eauto].
  destruct (status_code resp =? 200); [| eauto].
  destruct (body resp) as [[d |] | x]; eauto.
Qed.

Lemma get_live_matches_ok (e : Env) (w : World) :
  exists ms fb, (get_live_matches e w).1 = Ok (ms, fb).
Proof.
  rewrite get_live_matches_run. cbv zeta.
  destruct (truthy_str _); [| eauto].
  destruct (network _ _ _) as [resp | x]; [| eauto].
  destruct (status_code resp =? 200); [| eauto].
  destruct (body resp) as [[d |] | x]; eauto.
Qed.

Lemma get_upcoming_matches_ok (e : Env) (w : World) :
  exists ms fb, (get_upcoming_matches e w).1 = Ok (ms, fb).
Proof.
  rewrite get_upcoming_matches_run. cbv zeta.
  destruct (truthy_str _); [| eauto].
  destruct (network _ _ _) as [resp | x]; [| eauto].
  destruct (status_code resp =? 200); [| eauto].
  destruct (body resp) as [[d |] | x]; eauto.
  destruct (truthy_list _); eauto.
Qed.




End Handler.

(** The handler sorts the object it was given: after a request without
    filters, served from the fallback list, [FALLBACK_COMPETITIONS] itself
    is in name order. *)
Lemma home_sorts_in_place :
  let w' := (home ∅ (sample_env None net_down) initial_world).2 in
  fallback_competitions w' = sort_by_name FALLBACK_COMPETITIONS /\
  fallback_competitions w' <> FALLBACK_COMPETITIONS.
Proof.
  intros w'. split; [vm_compute; reflexivity |].
  intros H. apply (f_equal (fun l => name_of <$> take 1 l)) in H.
  vm_compute in H. discriminate H.
Qed.

(** C6 fails for the two match operations: the handler binds their flags and
    never reads them. Two requests, one served with authoritative matches
    and one with the static ones, lead to the same template arguments, and
    those say nothing about sample data. *)
Theorem home_drops_match_flags :
  let live e := get_live_matches e (get_competitions_data e initial_world).2 in
  let upcoming e := get_upcoming_matches e (live e).2 in
  (flag_of (live env_authoritative) = Some false /\
   flag_of (upcoming env_authoritative) = Some false) /\
  (flag_of (live env_degraded) = Some true /\
   flag_of (upcoming env_degraded) = Some true) /\
  (home ∅ env_authoritative initial_world).1 = (home ∅ env_degraded initial_world).1 /\
  match (home ∅ env_degraded initial_world).1 with
  | Ok ctx => length <$> ctx_live_matches ctx = Some 3%nat /\
              ctx_status_message ctx = None /\ ctx_error_message ctx = None
  | Raise _ => False
  end.
Proof.
  intros live upcoming.
  split; [split; vm_compute; reflexivity |].
  split; [split; vm_compute; reflexivity |].
  split; [vm_compute; reflexivity |].
  vm_compute. repeat split; reflexivity.
Qed.

(** * Further properties *)

Section HandlerRun.
Context {rt : PyRuntime}.

Lemma process_match_run (m : Match) (e : Env) (w : World) :
  process_match m e w = (Ok (shown_match m), w).
Proof.
  unfold process_match.
  erewrite bind_ok by apply format_match_time_run. reflexivity.
Qed.

Lemma process_upcoming_run (m : Match) (e : Env) (w : World) :
  process_upcoming m e w = (Ok (shown_upcoming m), w).
Proof.
  unfold process_upcoming.
  erewrite bind_ok by apply format_upcoming_date_run.
  erewrite bind_ok by apply format_match_time_run. reflexivity.
Qed.

Lemma for_each_run {A B} (f : A -> M B) (g : A -> B) (l : list A)
  (e : Env) (w : World) :
  (forall a, f a e w = (Ok (g a), w)) -> for_each f l e w = (Ok (g <$> l), w).
Proof.
  intros Hf. induction l as [| x l IH]; [reflexivity |].
  cbn [for_each]. erewrite bind_ok by apply Hf.
  erewrite bind_ok by exact IH. reflexivity.
Qed.

(** One request, start to end: the three fetches in order, the sort written
    back when the list is a shared one, the second fetch of competitions,
    and the arguments of the template. *)
Lemma home_run (args : gmap string string) (e : Env) (w w1 w2 w3 : World)
  (r : objref) (fb f2 f3 : bool) (ms us : list Match) :
  get_competitions_data e w = (Ok (r, fb), w1) ->
  get_live_matches e w1 = (Ok (ms, f2), w2) ->
  get_upcoming_matches e w2 = (Ok (us, f3), w3) ->
  let shown := shown_competitions args (deref w1 r) in
  let w4 := if unfiltered args && sorting args then store r shown w3 else w3 in
  exists r4 fb4 w5,
    get_competitions_data e w4 = (Ok (r4, fb4), w5) /\
    home args e w =
      (Ok {| ctx_competitions := shown;
             ctx_countries := shown_countries (deref w5 r4);
             ctx_current_search := arg args "search" "";
             ctx_current_sort := arg args "sort" "name";
             ctx_current_country := arg args "country" "";
             ctx_status_message := if fb then Some fallback_notice else None;
             ctx_error_message := None;
             ctx_live_matches := Some (shown_match <$> ms);
             ctx_upcoming_matches := Some (shown_upcoming <$> us) |}, w5).
Proof.
  intros R1 R2 R3 shown w4.
  pose proof (get_live_matches_store e w1) as S2. rewrite R2 in S2. cbn in S2.
  pose proof (get_upcoming_matches_store e w2) as S3. rewrite R3 in S3. cbn in S3.
  assert (Hderef : deref w3 r = deref w1 r).
  { destruct S2 as [C2 F2], S3 as [C3 F3]. destruct r; cbn; congruence. }
  destruct (get_competitions_data_ok e w4) as (r4 & fb4 & E4).
  destruct (get_competitions_data e w4) as [q w5] eqn:R4. cbn in E4. subst q.
  exists r4, fb4, w5. split; [reflexivity |].
  unfold home, try_except.
  erewrite bind_ok by exact R1. cbv beta iota.
  erewrite bind_ok by exact R2. cbv beta iota.
  erewrite bind_ok by exact R3. cbv beta iota.
  erewrite bind_ok by (apply for_each_run; intros; apply process_match_run).
  erewrite bind_ok by (apply for_each_run; intros; apply process_upcoming_run).
  subst shown w4. revert R4.
  unfold shown_competitions, shown_countries, unfiltered, sorting,
    filter_by_search, filter_by_country, sort_choice, sort_by_name, sort_by_country.
  cbv zeta. unfold sort_in_place, read. unfold bind, gets, ret, modify.
  destruct (truthy_str (Some (str_lower (arg args "search" ""))));
    destruct (truthy_str (Some (arg args "country" "")));
    destruct (String.eqb (arg args "sort" "name") "name");
    try destruct (String.eqb (arg args "sort" "name") "country");
    cbv beta iota; cbn [fst snd negb andb orb]; rewrite ?Hderef;
    intros R4; try (rewrite R4; reflexivity).
  all: destruct r; cbn in R4 |- *; rewrite R4; reflexivity.
Qed.

End HandlerRun.

(** ** What the fetch operations send and keep *)

Lemma get_competitions_data_world (e : Env) (w : World) :
  let w' := (get_competitions_data e w).2 in
  sent w' = (sent w ++
             if cache_fresh (clock_time e (ticks w)) (api_cache w)
             then [] else [competitions_request e])%list /\
  ticks w' = S (ticks w) /\
  fallback_competitions w' = fallback_competitions w.
Proof.
  rewrite get_competitions_data_run. cbv zeta.
  destruct (cache_fresh _ _).
  { cbn. now rewrite app_nil_r. }
  destruct (network _ _ _) as [resp | x]; [| now cbn].
  destruct (status_code resp =? 200); [| now cbn].
  destruct (body resp) as [[d |] | x]; now cbn.
Qed.

Section FetchWorlds.
Context {rt : PyRuntime}.

Lemma get_live_matches_world (e : Env) (w : World) :
  let w' := (get_live_matches e w).2 in
  let now := clock_now e (ticks w) in
  sent w' = (sent w ++
             if truthy_str (API_KEY e) then [matches_request e now now] else [])%list /\
  (ticks w <= ticks w')%nat.
Proof.
  rewrite get_live_matches_run. cbv zeta.
  destruct (truthy_str _).
  2: { cbn. rewrite app_nil_r. auto. }
  destruct (network _ _ _) as [resp | x]; [| cbn; auto].
  destruct (status_code resp =? 200); [| cbn; auto].
  destruct (body resp) as [[d |] | x]; cbn; auto.
Qed.

Lemma get_upcoming_matches_world (e : Env) (w : World) :
  let w' := (get_upcoming_matches e w).2 in
  let k := ticks w in
  sent w' = (sent w ++
             if truthy_str (API_KEY e)
             then [matches_request e (dt_add (clock_now e (3 + k)%nat) (days 1))
                                     (dt_add (clock_now e (4 + k)%nat) (days 7))]
             else [])%list /\
  (ticks w <= ticks w')%nat.
Proof.
  rewrite get_upcoming_matches_run. cbv zeta.
  destruct (truthy_str _).
  2: { cbn. rewrite app_nil_r. split; [reflexivity | lia]. }
  destruct (network _ _ _) as [resp | x]; [| cbn; split; [reflexivity | lia]].
  destruct (status_code resp =? 200); [| cbn; split; [reflexivity | lia]].
  destruct (body resp) as [[d |] | x];
    [| cbn; split; [reflexivity | lia] | cbn; split; [reflexivity | lia]].
  destruct (truthy_list _); cbn; split; (reflexivity || lia).
Qed.

End FetchWorlds.

Lemma store_world (r : objref) (l : list Competition) (w : World) :
  sent (store r l w) = sent w /\ ticks (store r l w) = ticks w.
Proof. destruct r; split; reflexivity. Qed.

Lemma competitions_request_well_formed (e : Env) :
  well_formed_request (competitions_request e).
Proof. split; [reflexivity | left; reflexivity]. Qed.

Lemma matches_request_well_formed (e : Env) (a b : datetime) :
  credential e -> well_formed_request (matches_request e a b).
Proof.
  unfold credential. intros Hk. split; [reflexivity |]. right.
  split; [reflexivity |]. cbn [headers matches_request].
  rewrite lookup_singleton_eq. destruct (API_KEY e); [exact Hk | discriminate].
Qed.

Lemma get_competitions_data_ref (e : Env) (w w1 : World) (r : objref) (fb : bool) :
  get_competitions_data e w = (Ok (r, fb), w1) ->
  (fb = true <-> r = RefFallbackCompetitions) /\
  (r = RefCacheData -> exists l, data (api_cache w1) = Some l).
Proof.
  rewrite get_competitions_data_run. cbv zeta. unfold cache_fresh.
  destruct (data (api_cache w)) as [[| c l] |] eqn:Hd; cbn [truthy_list andb].
  2: destruct (Qltb _ _);
       [intros [= <- <- <-]; cbn; rewrite Hd; split; [split; discriminate | eauto] |].
  all: destruct (network _ _ _) as [resp | x];
    [destruct (status_code resp =? 200); [destruct (body resp) as [[d |] | x] |] |];
    intros [= <- <- <-]; cbn; split;
    solve [ split; congruence | eauto | discriminate ].
Qed.

Section FetchResults.
Context {rt : PyRuntime}.

Lemma get_live_matches_result (e : Env) (w : World) :
  exists ms fb, (get_live_matches e w).1 = Ok (ms, fb) /\
                (fb = true -> ms = FALLBACK_MATCHES e) /\
                (length ms <= 10)%nat.
Proof.
  rewrite get_live_matches_run. cbv zeta.
  assert (Hfb : exists ms fb,
             Ok (FALLBACK_MATCHES e, true) = Ok (ms, fb) /\
             (fb = true -> ms = FALLBACK_MATCHES e) /\ (length ms <= 10)%nat).
  { exists (FALLBACK_MATCHES e), true. cbn. repeat split; lia. }
  destruct (truthy_str _); [| exact Hfb].
  destruct (network _ _ _) as [resp | x]; [| exact Hfb].
  destruct (status_code resp =? 200); [| exact Hfb].
  destruct (body resp) as [[d |] | x]; try exact Hfb.
  do 2 eexists. cbn. split; [reflexivity |].
  split; [discriminate | rewrite length_take; lia].
Qed.

Lemma get_upcoming_matches_result (e : Env) (w : World) :
  exists us fb,
    (get_upcoming_matches e w).1 = Ok (us, fb) /\
    (fb = true ->
     us = upcoming_fixtures (clock_now e (ticks w)) (clock_now e (S (ticks w)))
                            (clock_now e (S (S (ticks w))))) /\
    (1 <= length us <= 5)%nat.
Proof.
  rewrite get_upcoming_matches_run. cbv zeta.
  set (fixtures := upcoming_fixtures _ _ _).
  assert (Hfb : exists us fb,
             Ok (fixtures, true) = Ok (us, fb) /\
             (fb = true -> us = fixtures) /\ (1 <= length us <= 5)%nat).
  { exists fixtures, true. cbn. repeat split; lia. }
  destruct (truthy_str _); [| exact Hfb].
  destruct (network _ _ _) as [resp | x]; [| exact Hfb].
  destruct (status_code resp =? 200); [| exact Hfb].
  destruct (body resp) as [[d |] | x]; try exact Hfb.
  destruct (default [] (doc_matches d)) as [| m ms] eqn:Hm; cbn; [exact Hfb |].
  do 2 eexists. split; [reflexivity |].
  split; [discriminate |]. cbn. rewrite length_take. lia.
Qed.

(** The three fetch operations hand back a result in every case, never an
    exception. The competitions flag is raised exactly when the list handed
    back is the fallback list; flagged matches are the static ones; live
    matches are ten at most, upcoming ones between one and five. *)
Theorem fetch_results (e : Env) (w : World) :
  (exists r fb, (get_competitions_data e w).1 = Ok (r, fb) /\
                (fb = true <-> r = RefFallbackCompetitions)) /\
  (exists ms fb, (get_live_matches e w).1 = Ok (ms, fb) /\
                 (fb = true -> ms = FALLBACK_MATCHES e) /\
                 (length ms <= 10)%nat) /\
  (exists us fb,
     (get_upcoming_matches e w).1 = Ok (us, fb) /\
     (fb = true ->
      us = upcoming_fixtures (clock_now e (ticks w)) (clock_now e (S (ticks w)))
                             (clock_now e (S (S (ticks w))))) /\
     (1 <= length us <= 5)%nat).
Proof.
  split; [| split].
  - destruct (get_competitions_data_ok e w) as (r & fb & E).
    destruct (get_competitions_data e w) as [q w1] eqn:R. cbn in E. subst q.
    exists r, fb. split; [reflexivity |]. apply (get_competitions_data_ref _ _ _ _ _ R).
  - apply get_live_matches_result.
  - apply get_upcoming_matches_result.
Qed.

(** One request sends four requests at most, each with a timeout of ten
    seconds, and the ones for matches carry a token. Without a credential
    it sends two at most, both for the competitions and without headers. *)
Theorem home_requests (args : gmap string string) (e : Env) (w : World) :
  exists extra,
    sent (home args e w).2 = (sent w ++ extra)%list /\
    (length extra <= 4)%nat /\
    Forall well_formed_request extra /\
    (~ credential e ->
       (length extra <= 2)%nat /\
       Forall (fun rq => url rq = API_URL /\ headers rq = ∅) extra).
Proof.
  destruct (get_competitions_data_ok e w) as (r & fb & E1).
  destruct (get_competitions_data e w) as [q1 w1] eqn:R1. cbn in E1. subst q1.
  destruct (get_live_matches_ok e w1) as (ms & f2 & E2).
  destruct (get_live_matches e w1) as [q2 w2] eqn:R2. cbn in E2. subst q2.
  destruct (get_upcoming_matches_ok e w2) as (us & f3 & E3).
  destruct (get_upcoming_matches e w2) as [q3 w3] eqn:R3. cbn in E3. subst q3.
  destruct (home_run args e w w1 w2 w3 r fb f2 f3 ms us R1 R2 R3)
    as (r4 & fb4 & w5 & R4 & Hhome).
  rewrite Hhome. cbn [snd].
  set (w4 := if unfiltered args && sorting args then _ else w3) in R4.
  pose proof (get_competitions_data_world e w) as (S1 & _). rewrite R1 in S1.
  pose proof (get_live_matches_world e w1) as (S2 & _). rewrite R2 in S2.
  pose proof (get_upcoming_matches_world e w2) as (S3 & _). rewrite R3 in S3.
  pose proof (get_competitions_data_world e w4) as (S4 & _). rewrite R4 in S4.
  cbn [snd] in S1, S2, S3, S4.
  assert (Hw4 : sent w4 = sent w3).
  { subst w4. destruct (unfiltered args && sorting args); [apply store_world | reflexivity]. }
  rewrite S4, Hw4, S3, S2, S1, <- !app_assoc.
  eexists. split; [reflexivity |].
  unfold credential.
  destruct (truthy_str (API_KEY e)) eqn:Hk;
    destruct (cache_fresh _ (api_cache w)); destruct (cache_fresh _ (api_cache w4));
    cbn [app length]; (split; [lia |]);
    (split;
     [ repeat (apply List.Forall_cons;
               [first [ apply competitions_request_well_formed
                      | apply matches_request_well_formed; exact Hk ] |]);
       apply List.Forall_nil
     | intros Hno;
       first [ now destruct Hno
             | split; [lia |];
               repeat (apply List.Forall_cons;
                       [unfold competitions_request; rewrite Hk; split; reflexivity |]);
               apply List.Forall_nil ] ]).
Qed.


End FetchResults.

(** ** The countries offered for filtering *)





Section HandlerEffects.
Context {rt : PyRuntime}.



End HandlerEffects.

(** ** The cache in every state *)



Section CacheInvariant.
Context {rt : PyRuntime}.



End CacheInvariant.


(** ** A page without a credential *)


Section Offline.
Context {rt : PyRuntime}.


End Offline.


(** ** Sorting and filtering together *)

Lemma nondecreasing_fmap {A} (key : A -> string) (l : list A) :
  nondecreasing key l <-> StronglySorted str_le (key <$> l).
Proof.
  unfold nondecreasing. induction l as [| x l IH]; cbn.
  - split; constructor.
  - split; intros H; inversion H as [| ? ? Hs Hx]; subst.
    + constructor; [now apply IH |]. rewrite Forall_fmap. exact Hx.
    + constructor; [now apply IH |]. rewrite Forall_fmap in Hx. exact Hx.
Qed.

Lemma nondecreasing_filter {A} (key : A -> string) (f : A -> bool) (l : list A) :
  nondecreasing key l -> nondecreasing key (List.filter f l).
Proof.
  unfold nondecreasing. induction 1 as [| x l Hs IH Hx]; cbn; [constructor |].
  destruct (f x); [| exact IH].
  constructor; [exact IH |].
  rewrite List.Forall_forall in Hx |- *. intros y Hy.
  apply filter_In in Hy. now apply Hx.
Qed.

Lemma sort_insert_filter {A} (key : A -> string) (f : A -> bool) (x : A) (l : list A) :
  nondecreasing key l ->
  List.filter f (sort_insert key x l) =
  if f x then sort_insert key x (List.filter f l) else List.filter f l.
Proof.
  unfold nondecreasing. induction 1 as [| y l Hs IH Hy]; cbn [sort_insert List.filter].
  - destruct (f x); reflexivity.
  - destruct (str_lt (key y) (key x)) eqn:Hlt; cbn [List.filter].
    + rewrite IH. destruct (f y), (f x); cbn [sort_insert]; rewrite ?Hlt; reflexivity.
    + destruct (f x); [| reflexivity].
      symmetry. apply sort_insert_head.
      apply str_lt_false_le in Hlt.
      assert (Hall : Forall (fun z => str_le (key x) (key z)) (y :: l)).
      { constructor; [exact Hlt |].
        eapply Forall_impl; [exact Hy |]. intros z Hz.
        eapply str_le_trans; eassumption. }
      rewrite List.Forall_forall in Hall |- *. intros z Hz.
      apply Hall. change (In z (List.filter f (y :: l))) in Hz.
      now apply filter_In in Hz.
Qed.

Lemma list_sort_filter {A} (key : A -> string) (f : A -> bool) (l : list A) :
  list_sort key (List.filter f l) = List.filter f (list_sort key l).
Proof.
  induction l as [| x l IH]; [reflexivity |].
  cbn [List.filter list_sort].
  rewrite sort_insert_filter by apply list_sort_sorted.
  destruct (f x); cbn [list_sort]; now rewrite IH.
Qed.

(** Sorting by country puts the area names in ascending order and keeps
    every competition; competitions of one country keep the order they had,
    so that a list sorted by name and then by country has its names in order
    within every country. *)
Theorem sort_by_country_orders (l : list Competition) :
  StronglySorted str_le (area_name_of <$> sort_by_country l) /\
  sort_by_country l ≡ₚ l /\
  (forall k, filter (fun c => area_name_of c = k) (sort_by_country l) =
             filter (fun c => area_name_of c = k) l) /\
  (forall k, StronglySorted str_le
               (name_of <$> filter (fun c => area_name_of c = k)
                                   (sort_by_country (sort_by_name l)))).
Proof.
  unfold sort_by_country, sort_by_name.
  split; [apply (proj1 (nondecreasing_fmap _ _)), list_sort_sorted |].
  split; [apply list_sort_perm |].
  split; [intros k; apply list_sort_stable |].
  intros k. rewrite list_sort_stable. apply (proj1 (nondecreasing_fmap _ _)).
  unfold nondecreasing.
  pose proof (list_sort_sorted name_of l) as Hs. unfold nondecreasing in Hs.
  induction Hs as [| x s Hs IH Hx]; [constructor |].
  rewrite filter_cons. destruct (decide (area_name_of x = k)); [| exact IH].
  constructor; [exact IH |].
  rewrite Forall_forall in Hx |- *. intros y Hy.
  apply list_elem_of_filter in Hy. now apply Hx.
Qed.

Section Commute.
Context {rt : PyRuntime}.

(** The filters and the sort can be applied in any order: the list a request
    is shown is the same whether the handler filters by search term, then by
    country, then sorts, or sorts the full list first, or filters by country
    first. *)
Theorem shown_competitions_any_order (args : gmap string string)
  (l : list Competition) :
  let search := arg args "search" "" in
  let country := arg args "country" "" in
  let sort_by := arg args "sort" "name" in
  shown_competitions args l =
    filter_by_country country (filter_by_search search (sort_choice sort_by l)) /\
  shown_competitions args l =
    sort_choice sort_by (filter_by_search search (filter_by_country country l)).
Proof.
  intros search country sort_by. unfold shown_competitions.
  fold search. fold country. fold sort_by.
  assert (Hcomm : filter_by_country country (filter_by_search search l) =
                  filter_by_search search (filter_by_country country l)).
  { unfold filter_by_search, filter_by_country. cbv zeta.
    destruct (truthy_str (Some (str_lower search))), (truthy_str (Some country));
      try reflexivity.
    induction l as [| c l IH]; [reflexivity |]. cbn [List.filter].
    destruct (search_keeps _ c) eqn:Hs, (country_keeps _ c) eqn:Hc;
      cbn [List.filter]; rewrite ?Hs, ?Hc, IH; reflexivity. }
  split; [| now rewrite Hcomm].
  unfold sort_choice, sort_by_name, sort_by_country, filter_by_search, filter_by_country.
  cbv zeta.
  destruct (String.eqb sort_by "name"); [| destruct (String.eqb sort_by "country")];
    destruct (truthy_str (Some (str_lower search))), (truthy_str (Some country));
    rewrite ?list_sort_filter; reflexivity.
Qed.

End Commute.

(** ** The reference pages *)

Lemma competition_teams_lookup (k : string) :
  (k ∈ competition_keys ->
   exists roster, competition_teams !! k = Some roster /\ length roster = 6%nat) /\
  (k ∉ competition_keys -> competition_teams !! k = None).
Proof.
  unfold competition_teams, competition_keys. rewrite !lookup_insert, lookup_empty.
  split.
  - rewrite !elem_of_cons, elem_of_nil.
    intros [-> | [-> | [-> | [-> | [-> | []]]]]];
      repeat (case_decide; [eexists; split; reflexivity | try congruence]).
  - rewrite !not_elem_of_cons. intros (H1 & H2 & H3 & H4 & H5 & _).
    repeat (case_decide; [congruence |]). reflexivity.
Qed.

Lemma teams_lookup (k : string) :
  k ∈ team_keys <-> is_Some (teams !! k).
Proof.
  unfold teams, team_keys. rewrite !lookup_insert, lookup_empty.
  rewrite !elem_of_cons, elem_of_nil. split.
  - intros [-> | [-> | [-> | [-> | [-> | []]]]]];
      repeat (case_decide; [eexists; reflexivity | try congruence]).
  - repeat (case_decide; [subst; tauto |]). intros [p Hp]. discriminate.
Qed.

Lemma roster_has (l : list RosterTeam) (s f : string) :
  existsb (fun t => String.eqb (roster_stadium t) s &&
                    String.eqb (roster_founded t) f) l = true ->
  exists t, t ∈ l /\ roster_stadium t = s /\ roster_founded t = f.
Proof.
  rewrite existsb_exists. intros (t & Hin & Ht).
  apply andb_true_iff in Ht. destruct Ht as [Hs Hf].
  apply String.eqb_eq in Hs, Hf. exists t. now rewrite list_elem_of_In.
Qed.

Section Pages.
Context {rt : PyRuntime}.

(** The page of a competition lists teams exactly when the name, put in
    lower case, is one of the five keys of the table, and then it lists six
    teams; otherwise it is told that there are none. The name is looked up
    with its hyphens, while for display they are replaced by spaces: a name
    with a hyphen in it never finds teams. *)
Theorem competition_pages (str_title : string -> string) (competition_name : string) :
  let page := competition_details str_title competition_name in
  page_competition_name page = str_title (str_replace "-" " " competition_name) /\
  (str_lower competition_name ∈ competition_keys ->
     page_teams page = Some (get_competition_teams competition_name) /\
     length (get_competition_teams competition_name) = 6%nat) /\
  (str_lower competition_name ∉ competition_keys ->
     page_teams page = None /\ get_competition_teams competition_name = []) /\
  (str_contains "-" (str_lower competition_name) = true -> page_teams page = None).
Proof.
  intros page. subst page. unfold competition_details, get_competition_teams. cbv zeta.
  destruct (competition_teams_lookup (str_lower competition_name)) as [Hin Hout].
  assert (Hmiss : str_lower competition_name ∉ competition_keys ->
            page_teams
              (if truthy_list (Some (default [] (competition_teams !! str_lower competition_name)))
               then {| page_competition_name :=
                         str_title (str_replace "-" " " competition_name);
                       page_teams :=
                         Some (default [] (competition_teams !! str_lower competition_name)) |}
               else {| page_competition_name :=
                         str_title (str_replace "-" " " competition_name);
                       page_teams := None |}) = None /\
            default [] (competition_teams !! str_lower competition_name) = []).
  { intros Hk. rewrite (Hout Hk). split; reflexivity. }
  split; [destruct (truthy_list _); reflexivity |].
  split; [| split; [exact Hmiss |]].
  - intros Hk. destruct (Hin Hk) as (roster & -> & Hlen). cbn [default].
    destruct roster; [discriminate |]. split; [reflexivity | exact Hlen].
  - intros Hhyphen. apply Hmiss. intros Hk.
    unfold competition_keys in Hk. rewrite !elem_of_cons, elem_of_nil in Hk.
    destruct Hk as [Hk | [Hk | [Hk | [Hk | [Hk | []]]]]];
      rewrite Hk in Hhyphen; discriminate Hhyphen.
Qed.

(** The page of a team has a profile exactly when the name, put in lower
    case, is one of the five keys of the table; otherwise it is given the
    requested name back. Every team with a profile also appears, with the
    same stadium and founding year, in the teams listed for its league. *)
Theorem team_pages (team_name : string) :
  lowers_ascii ->
  (str_lower team_name ∈ team_keys <-> is_Some (page_team (team_details team_name))) /\
  (str_lower team_name ∉ team_keys ->
     team_details team_name =
       {| page_team := None; page_team_name := Some team_name |}) /\
  (forall p, page_team (team_details team_name) = Some p ->
     page_team_name (team_details team_name) = None /\
     exists t, t ∈ get_competition_teams (profile_league p) /\
               roster_stadium t = profile_stadium p /\
               roster_founded t = profile_founded p).
Proof.
  intros Hascii. unfold team_details, get_team_info. cbv zeta.
  pose proof (teams_lookup (str_lower team_name)) as Hkeys.
  split; [| split].
  - rewrite Hkeys. destruct (teams !! str_lower team_name); cbn; split;
      intros [p Hp]; (discriminate || eauto).
  - intros Hk. destruct (teams !! str_lower team_name) as [p |] eqn:Hp; [| reflexivity].
    destruct Hk. apply Hkeys. eauto.
  - intros p. destruct (teams !! str_lower team_name) as [q |] eqn:Hq; [| discriminate].
    cbn. intros [= <-]. split; [reflexivity |].
    unfold get_competition_teams. cbv zeta.
    revert Hq. unfold teams. rewrite !lookup_insert, lookup_empty.
    repeat (case_decide;
            [intros [= <-]; cbn [profile_league profile_stadium profile_founded];
             rewrite Hascii by reflexivity; apply roster_has; vm_compute; reflexivity |]).
    intros Hnone. discriminate Hnone.
Qed.

End Pages.

Lemma small_runtime_lowers_ascii : @lowers_ascii small_runtime.
Proof. intros s _. reflexivity. Qed.

Lemma competition_pages_witness :
  let shown := competition_details str_title_ascii in
  ((str_lower "Premier League" ∈ competition_keys) /\
   (str_lower "Eredivisie" ∉ competition_keys) /\
   str_contains "-" (str_lower "premier-league") = true) /\
  page_competition_name (shown "premier-league") = "Premier League" /\
  page_teams (shown "premier-league") = None /\
  length <$> page_teams (shown "Premier League") = Some 6%nat /\
  page_teams (shown "Eredivisie") = None.
Proof.
  intros shown.
  assert (H1 : str_lower "Premier League" ∈ competition_keys) by (vm_compute; left).
  assert (H2 : str_lower "Eredivisie" ∉ competition_keys).
  { unfold competition_keys. rewrite !not_elem_of_cons. repeat split; try discriminate.
    apply not_elem_of_nil. }
  assert (H3 : str_contains "-" (str_lower "premier-league") = true) by reflexivity.
  split; [auto |]. subst shown.
  destruct (competition_pages str_title_ascii "premier-league") as (Hn & _ & _ & Hh).
  destruct (competition_pages str_title_ascii "Premier League") as (_ & Hk & _ & _).
  destruct (competition_pages str_title_ascii "Eredivisie") as (_ & _ & Hm & _).
  split; [exact Hn |]. split; [exact (Hh H3) |].
  split; [| exact (proj1 (Hm H2))].
  destruct (Hk H1) as [-> Hlen]. cbn. now rewrite Hlen.
Defined.

Lemma team_pages_witness :
  lowers_ascii /\
  is_Some (page_team (team_details "Manchester United")) /\
  team_details "MANCHESTER UNITED" = team_details "manchester united" /\
  team_details "Nonexistent FC" =
    {| page_team := None; page_team_name := Some "Nonexistent FC" |} /\
  (forall p, page_team (team_details "Barcelona") = Some p ->
     exists t, t ∈ get_competition_teams (profile_league p) /\
               roster_stadium t = profile_stadium p /\
               roster_founded t = profile_founded p).
Proof.
  pose proof small_runtime_lowers_ascii as Ha.
  split; [exact Ha |].
  destruct (team_pages "Manchester United" Ha) as (Hfound & _ & _).
  destruct (team_pages "Nonexistent FC" Ha) as (_ & Hmiss & _).
  destruct (team_pages "Barcelona" Ha) as (_ & _ & Hleague).
  split; [apply Hfound; vm_compute; left |].
  split; [reflexivity |].
  split.
  - apply Hmiss. unfold team_keys. rewrite !not_elem_of_cons.
    repeat split; try discriminate. apply not_elem_of_nil.
  - intros p Hp. exact (proj2 (Hleague p Hp)).
Defined.

Lemma fetch_results_witness :
  let e := sample_env (Some "token") (net_status 500) in
  (exists ms, (get_live_matches e initial_world).1 = Ok (ms, true) /\
              ms = FALLBACK_MATCHES e) /\
  (exists us, (get_upcoming_matches e initial_world).1 = Ok (us, true) /\
              us = upcoming_fixtures noon noon noon).
Proof.
  intros e.
  destruct (fetch_results e initial_world)
    as (_ & (ms & fb & Hl & Hlf & _) & (us & fb' & Hu & Huf & _)).
  assert (Hfb : fb = true).
  { assert (E : (get_live_matches e initial_world).1 =
                Ok (FALLBACK_MATCHES e, true)) by reflexivity.
    rewrite Hl in E. now injection E. }
  assert (Hfb' : fb' = true).
  { assert (E : (get_upcoming_matches e initial_world).1 =
                Ok (upcoming_fixtures noon noon noon, true)) by reflexivity.
    rewrite Hu in E. now injection E. }
  subst fb fb'. split.
  - exists ms. split; [exact Hl | exact (Hlf eq_refl)].
  - exists us. split; [exact Hu | exact (Huf eq_refl)].
Defined.

Lemma home_requests_witness :
  let e := sample_env None net_down in
  ~ credential e /\
  exists extra,
    sent (home ∅ e initial_world).2 = (sent initial_world ++ extra)%list /\
    (length extra <= 2)%nat /\
    Forall (fun rq => url rq = API_URL /\ headers rq = ∅) extra.
Proof.
  intros e.
  assert (Hno : ~ credential e) by discriminate.
  split; [exact Hno |].
  destruct (home_requests ∅ e initial_world) as (extra & Hs & _ & _ & Hn).
  exists extra. split; [exact Hs | exact (Hn Hno)].
Defined.
